(** * notion-to-md renderer core: an embedding of [BaseRendererPlugin]

    The TypeScript class [BaseRendererPlugin] (core/renderer) is embedded
    with explicit state passing: an [Engine] record holds the fields of an
    instance, every method is a function on it, and a method that can throw
    returns a [Res].  An asynchronous method is given by what its promise
    settles to.  Transformers and resolvers are client code and come in as
    functions; [process] awaits one block at a time, so the collectors
    change in block order.  The frontmatter helper [formatYamlValue] and
    the MDX annotation transformers are embedded next to the class.

    Strings are taken as sequences of 8-bit characters; every string the
    engine itself inspects (placeholders, variable names) is ASCII.
    Record fields share one name space, so a few carry a prefix
    ([data_], [in_], [ann_]). *)

From Stdlib Require Import ZArith Ascii String.
From stdpp Require Import base option list strings gmap pretty.

Set Default Proof Using "Type".
Set Warnings "-register-all".
Open Scope string_scope.
Open Scope list_scope.

(** ** Strings *)

Module Str.

(** Characters that cannot be written inside a string literal here. *)
Definition dquote : ascii := Eval cbv in ascii_of_nat 34.
Definition newline : ascii := Eval cbv in ascii_of_nat 10.
Definition backslash : ascii := Eval cbv in ascii_of_nat 92.

Definition of_char (c : ascii) : string := String c EmptyString.

(** [strip p s]: [Some r] when [s = p ++ r] (String.prototype.startsWith,
    returning what follows the prefix). *)
Fixpoint strip (p s : string) : option string :=
  match p with
  | EmptyString => Some s
  | String a p' =>
      match s with
      | EmptyString => None
      | String b s' => if decide (a = b) then strip p' s' else None
      end
  end.

Definition startsWith (p s : string) : bool :=
  match strip p s with Some _ => true | None => false end.

(** String.prototype.includes: some suffix of [s] starts with [needle]. *)
Fixpoint includes (needle s : string) : bool :=
  startsWith needle s ||
  match s with
  | EmptyString => false
  | String _ s' => includes needle s'
  end.

(** Array.prototype.join on an array of strings. *)
Fixpoint join (sep : string) (l : list string) : string :=
  match l with
  | [] => ""
  | [x] => x
  | x :: r => x +:+ sep +:+ join sep r
  end.

(** Truthiness of a string: the empty string is the only falsy one. *)
Definition nonempty (s : string) : bool :=
  match s with EmptyString => false | String _ _ => true end.

(** The class [\w] of a non-unicode regular expression: [A-Za-z0-9_]. *)
Definition isWord (c : ascii) : bool :=
  let n := nat_of_ascii c in
  (((48 <=? n) && (n <=? 57)) || ((65 <=? n) && (n <=? 90))
   || ((97 <=? n) && (n <=? 122)) || (n =? 95))%nat.

(** The longest run of word characters at the start of [s], and the rest. *)
Fixpoint spanWord (s : string) : string * string :=
  match s with
  | EmptyString => ("", "")
  | String c r =>
      if isWord c then let '(w, t) := spanWord r in (String c w, t)
      else ("", s)
  end.

(** s.replace(/"/g, '\\"'): every double quote gets a backslash before it. *)
Fixpoint escapeQuotes (s : string) : string :=
  match s with
  | EmptyString => ""
  | String c r =>
      if decide (c = dquote)
      then String backslash (String dquote (escapeQuotes r))
      else String c (escapeQuotes r)
  end.

End Str.

(** ** Values, thrown values and results *)

(** The numbers of the model: the safe integers ([Number.isSafeInteger],
    at most 2^53 - 1 in absolute value).  Each is a number value of the
    language exactly, and [String()] of it is its decimal notation. *)
Record SafeInteger := {
  int_value : Z;
  int_safe : bool_decide (Z.abs int_value <= 9007199254740991)%Z
}.

Definition zero : SafeInteger := {| int_value := 0; int_safe := I |}.

(** A JavaScript value as far as the engine looks into one. *)
Inductive JsValue : Type :=
  | JUndefined
  | JNull
  | JBool (b : bool)
  | JNum (n : SafeInteger)
  | JStr (s : string)
  | JArr (elems : list JsValue)
  | JObj (fields : list (string * JsValue)).

(** ToBoolean. *)
Definition truthy (v : JsValue) : bool :=
  match v with
  | JUndefined | JNull => false
  | JBool b => b
  | JNum n => negb (int_value n =? 0)%Z
  | JStr s => Str.nonempty s
  | JArr _ | JObj _ => true
  end.

(** ToString, as [String(v)] and a template literal compute it.  An array
    joins its elements with a comma, [null] and [undefined] elements giving
    the empty string. *)
Fixpoint toString (v : JsValue) : string :=
  match v with
  | JUndefined => "undefined"
  | JNull => "null"
  | JBool true => "true"
  | JBool false => "false"
  | JNum n => pretty (int_value n)
  | JStr s => s
  | JArr elems =>
      Str.join ","
        (map (fun e => match e with
                       | JUndefined | JNull => ""
                       | _ => toString e
                       end) elems)
  | JObj _ => "[object Object]"
  end.

(** What a [throw] carries: an [Error] instance with its message, or any
    other value. *)
Inductive Thrown : Type :=
  | ErrorObj (message : string)
  | NonError (v : JsValue).

(** [error instanceof Error ? error.message : String(error)] *)
Definition errorText (x : Thrown) : string :=
  match x with
  | ErrorObj m => m
  | NonError v => toString v
  end.

(** The outcome of a call that may throw (of a promise that may reject). *)
Inductive Res (A : Type) : Type :=
  | Ok (a : A)
  | Throw (x : Thrown).
Arguments Ok {A} a.
Arguments Throw {A} x.

Definition bind {A B} (r : Res A) (k : A -> Res B) : Res B :=
  match r with
  | Ok a => k a
  | Throw x => Throw x
  end.

Declare Scope res_scope.
Delimit Scope res_scope with res.
Notation "x <- r ;; k" := (bind r (fun x => k))
  (at level 100, r at next level, right associativity) : res_scope.
Notation "r ;;; k" := (bind r (fun _ => k))
  (at level 100, right associativity) : res_scope.
Open Scope res_scope.

(** Awaiting a list of promises for their values, in index order. *)
Fixpoint mapRes {A B} (f : A -> Res B) (l : list A) : Res (list B) :=
  match l with
  | [] => Ok []
  | a :: r => b <- f a ;; bs <- mapRes f r ;; Ok (b :: bs)
  end.

Definition isThrow {A} (r : Res A) : bool :=
  match r with Ok _ => false | Throw _ => true end.

(** ** The frontmatter value formatter (mdx/helpers.ts) *)

(** [`"${v}"`]: the element's string conversion between two double quotes. *)
Definition quoted (s : string) : string :=
  String Str.dquote (s +:+ Str.of_char Str.dquote).

Definition formatYamlValue (value : JsValue) : string :=
  match value with
  | JArr elems =>
      "[" +:+ Str.join ", " (map (fun v => quoted (toString v)) elems) +:+ "]"
  | JStr s => quoted (Str.escapeQuotes s)
  | _ => toString value
  end.

(** ** The placeholder expressions *)

Module Placeholder.

(** The expression [{{{(\w+)}}}] tried at the start of [s]; the result is
    the captured identifier.  [\w+] is greedy, and giving characters back
    cannot help: the character after a shorter run is a word character,
    never a brace.  So there is a match exactly when three opening braces
    are followed by a non-empty maximal run of word characters and three
    closing braces. *)
Definition matchAt (s : string) : option string :=
  match Str.strip "{{{" s with
  | None => None
  | Some r =>
      let '(w, t) := Str.spanWord r in
      if Str.nonempty w && Str.startsWith "}}}" t then Some w else None
  end.

(** The text of a match whose capture is [w]. *)
Definition matched (w : string) : string := "{{{" +:+ w +:+ "}}}".

(** [s.match(/{{{(\w+)}}}/g) || []]: the texts of all matches, left to
    right, the search resuming where the last match ended.  [skip] counts
    the characters of the last match still to be passed over. *)
Fixpoint matchAll (skip : nat) (s : string) : list string :=
  match s with
  | EmptyString => []
  | String _ r =>
      match skip with
      | S k => matchAll k r
      | O =>
          match matchAt s with
          | Some w => matched w :: matchAll (5 + String.length w) r
          | None => matchAll 0 r
          end
      end
  end.

(** [s.replace(/{{{(\w+)}}}/g, (_, name) => f(name))] *)
Fixpoint replaceAll (f : string -> string) (skip : nat) (s : string) : string :=
  match s with
  | EmptyString => ""
  | String c r =>
      match skip with
      | S k => replaceAll f k r
      | O =>
          match matchAt s with
          | Some w => f w +:+ replaceAll f (5 + String.length w) r
          | None => String c (replaceAll f 0 r)
          end
      end
  end.

(** [s.replace(/{{{|}}}/, '')]: the expression has no [g] flag, so only
    the leftmost occurrence of either brace triple is removed. *)
Fixpoint stripFirstBraces (s : string) : string :=
  match Str.strip "{{{" s with
  | Some r => r
  | None =>
      match Str.strip "}}}" s with
      | Some r => r
      | None =>
          match s with
          | EmptyString => ""
          | String c r => String c (stripFirstBraces r)
          end
      end
  end.

End Placeholder.

(** ** A [Map] with string keys

    A JavaScript [Map] keeps its entries in insertion order; [set] on a key
    that is present replaces the value where it stands. *)

Module JsMap.
Section Ops.
Context {V : Type}.

Fixpoint get (k : string) (m : list (string * V)) : option V :=
  match m with
  | [] => None
  | (k', v) :: r => if decide (k = k') then Some v else get k r
  end.

Definition has (k : string) (m : list (string * V)) : bool :=
  match get k m with Some _ => true | None => false end.

Fixpoint set (k : string) (v : V) (m : list (string * V)) : list (string * V) :=
  match m with
  | [] => [(k, v)]
  | (k', v') :: r =>
      if decide (k = k') then (k, v) :: r else (k', v') :: set k v r
  end.

Definition keys (m : list (string * V)) : list string := map fst m.
End Ops.
End JsMap.

(** ** Data model

    The class imports its types from the package's [types] module and from
    the Notion client; neither declaration is among the sources.  The
    records below take them from the specification's data model and
    interface sections, with the field names the class's code uses. *)

(** Modelled from the spec: [ContextMetadata] and [PageProperties], mappings
    from names to arbitrary values.  Merging two of them with object
    spread, [{...a, ...b}], is [b ∪ a] (the union keeps the left operand's
    value on a key both have). *)
Abbreviation ContextMetadata := (gmap string JsValue).
Abbreviation PageProperties := (gmap string JsValue).

(** Modelled from the spec: [VariableCollector], ordered sequences of
    string fragments keyed by variable name; the class creates it with
    [new Map()]. *)
Abbreviation VariableCollector := (list (string * list string)).

(** Modelled from the spec: a rich-text span (plain text, annotation flags,
    optional link), with the fields [processRichText] reads.  [annotations]
    lists the entries of the annotation object in the order
    [Object.entries] gives them. *)
Record RichTextItemResponse := {
  plain_text : string;
  href : option string;
  annotations : list (string * JsValue)
}.

(** Modelled from the spec: a block, a type tag with rich-text spans and
    nested children as the variant-specific fields. *)
Inductive Block : Type := mkBlock {
  type : string;
  rich_text : list RichTextItemResponse;
  children : list Block
}.

Record Link := { url : string }.

(** Modelled from the spec: the argument of an annotation transformer's
    [transform], text with optional flags, metadata and link. *)
Record AnnotationInput := {
  text : string;
  in_annotations : option (list (string * JsValue));
  in_metadata : option ContextMetadata;
  link : option Link
}.

(** Modelled from the spec: the annotation transformer contract.  The
    function is asynchronous; its result is what the promise settles to. *)
Record AnnotationTransformer := {
  ann_transform : AnnotationInput -> Res string
}.

(** Modelled from the spec: the context a block transformer or a variable
    resolver receives, with the fields the constructor gives it.
    [variableData] is the engine's collector map itself (the same object),
    so a callee can change it; [annotationTransformers] is
    [transformers.annotations], read by [utils.processRichText]. *)
Record RendererContext := {
  pageId : string;
  pageProperties : PageProperties;
  metadata : ContextMetadata;
  block : option Block;
  blockTree : list Block;
  variableData : VariableCollector;
  annotationTransformers : gmap string AnnotationTransformer
}.

(** Modelled from the spec: the block transformer contract, [transform]
    with optional [imports] and [targetVariable].  [transform] is client
    code: it is given by what it does, an outcome and the collector map it
    leaves behind (it reaches the map through [context.variableData] and
    through the [utils] closures, which process rich text and child
    blocks on the same instance). *)
Record BlockTransformer := {
  transform : RendererContext -> Res string * VariableCollector;
  imports : option (list string);
  targetVariable : option string
}.

(** Modelled from the spec: the variable resolver contract. *)
Definition VariableResolver : Type := string -> RendererContext -> Res string.

(** Modelled from the spec: the input record, an identifier, a block tree
    (ordered blocks and a property mapping) and metadata; the output record
    has [content] set. *)
Record BlockTree := {
  blocks : list Block;
  properties : PageProperties
}.

Record ChainData := {
  data_pageId : string;
  data_blockTree : BlockTree;
  data_metadata : ContextMetadata;
  content : option string
}.

(** What calling the next stage's [process] does: it throws before it
    returns, or it returns a promise, which fulfils or rejects. *)
Inductive StageCall : Type :=
  | Raised (x : Thrown)
  | Promised (outcome : Res ChainData).

(** An instance of [BaseRendererPlugin].  [context] holds [this.context];
    its [variableData] is [this.variableDataCollector] (one map under two
    names); [blockTransformers] is [this.context.transformers.blocks], kept
    beside the context because a transformer's type mentions the context.
    The registries are keyed by the Notion type tags and annotation names,
    none of which names a member of [Object.prototype].  [next] is the next
    stage's [process], as a call. *)
Record Engine := {
  template : string;
  context : RendererContext;
  variableResolvers : list (string * VariableResolver);
  blockTransformers : gmap string BlockTransformer;
  next : option (ChainData -> StageCall)
}.

Definition variableDataCollector (e : Engine) : VariableCollector :=
  variableData (context e).

(** *** Field updates *)

Definition with_variableData (vd : VariableCollector) (c : RendererContext)
  : RendererContext :=
  {| pageId := pageId c; pageProperties := pageProperties c;
     metadata := metadata c; block := block c; blockTree := blockTree c;
     variableData := vd;
     annotationTransformers := annotationTransformers c |}.

Definition with_block (b : Block) (md : ContextMetadata) (c : RendererContext)
  : RendererContext :=
  {| pageId := pageId c; pageProperties := pageProperties c;
     metadata := md; block := Some b; blockTree := blockTree c;
     variableData := variableData c;
     annotationTransformers := annotationTransformers c |}.

Definition with_context (c : RendererContext) (e : Engine) : Engine :=
  {| template := template e; context := c;
     variableResolvers := variableResolvers e;
     blockTransformers := blockTransformers e; next := next e |}.

Definition with_collector (vd : VariableCollector) (e : Engine) : Engine :=
  with_context (with_variableData vd (context e)) e.

Definition with_resolvers (rs : list (string * VariableResolver)) (e : Engine)
  : Engine :=
  {| template := template e; context := context e;
     variableResolvers := rs;
     blockTransformers := blockTransformers e; next := next e |}.

Definition with_template (t : string) (e : Engine) : Engine :=
  {| template := t; context := context e;
     variableResolvers := variableResolvers e;
     blockTransformers := blockTransformers e; next := next e |}.


Definition with_content (c : string) (d : ChainData) : ChainData :=
  {| data_pageId := data_pageId d; data_blockTree := data_blockTree d;
     data_metadata := data_metadata d; content := Some c |}.

(** ** Variables, imports and the template *)

Definition defaultTemplate : string :=
  "{{{imports}}}" +:+ Str.of_char Str.newline +:+ "{{{content}}}".

(** [defaultResolver]: the collected fragments joined by newlines. *)
Definition defaultResolver : VariableResolver :=
  fun variableName context =>
    let collected := default [] (JsMap.get variableName (variableData context)) in
    Ok (Str.join (Str.of_char Str.newline) collected).

Definition addVariable (name : string) (resolver : option VariableResolver)
    (e : Engine) : Engine :=
  let e1 :=
    if JsMap.has name (variableDataCollector e) then e
    else with_collector (JsMap.set name [] (variableDataCollector e)) e in
  match resolver with
  | Some r => with_resolvers (JsMap.set name r (variableResolvers e1)) e1
  | None => e1
  end.

(** The body of the [forEach] in [addImports]: push unless included. *)
Definition pushImport (importCollector : list string) (imp : string)
  : list string :=
  if decide (imp ∈ importCollector) then importCollector
  else importCollector ++ [imp].

Definition addImports (imps : list string) (e : Engine) : Engine :=
  let importCollector :=
    default [] (JsMap.get "imports" (variableDataCollector e)) in
  with_collector
    (JsMap.set "imports" (fold_left pushImport imps importCollector)
       (variableDataCollector e)) e.

Definition initializeDefaultVariables (e : Engine) : Engine :=
  addVariable "content" (Some defaultResolver)
    (addVariable "imports" (Some defaultResolver) e).

Definition initializeTemplateVariables (e : Engine) : Engine :=
  let variables := Placeholder.matchAll 0 (template e) in
  fold_left
    (fun e variable => addVariable (Placeholder.stripFirstBraces variable) None e)
    variables e.

(** [validateTemplate]: [content] is looked for first, then [imports]. *)
Definition validateTemplate (template : string) : Res unit :=
  if negb (Str.includes "{{{content}}}" template)
  then Throw (ErrorObj "Template must contain content variable")
  else if negb (Str.includes "{{{imports}}}" template)
  then Throw (ErrorObj "Template must contain imports variable")
  else Ok tt.

Definition setTemplate (template : string) (e : Engine) : Res Engine :=
  validateTemplate template ;;;
  Ok (initializeTemplateVariables (with_template template e)).

(** [validateAndInitializeTemplate], run by the constructor; [template] is
    [this.template] at that moment. *)
Definition validateAndInitializeTemplate (e : Engine) : Res Engine :=
  if negb (Str.nonempty (template e))
  then Throw (ErrorObj "Template must be defined")
  else
    validateTemplate (template e) ;;;
    Ok (initializeTemplateVariables (initializeDefaultVariables e)).

(** The fields of an instance when the constructor's body starts: the
    class's field initializers have run, so the template is the class's
    own. *)
Definition blank : Engine :=
  {| template := defaultTemplate;
     context := {| pageId := ""; pageProperties := ∅; metadata := ∅;
                   block := None; blockTree := []; variableData := [];
                   annotationTransformers := ∅ |};
     variableResolvers := [];
     blockTransformers := ∅;
     next := None |}.

(** The constructor: it takes no argument. *)
Definition newBaseRendererPlugin : Res Engine :=
  validateAndInitializeTemplate (initializeDefaultVariables blank).

(** [new] of a subclass that declares its template as a class field,
    [protected template = ...], the way [MDXRenderer] does.  The field is
    assigned when [super()] has returned: the base constructor runs on the
    class's own template, and the subclass's template replaces it
    afterwards. *)
Definition newWithTemplateField (template : string) : Res Engine :=
  e <- newBaseRendererPlugin ;;
  Ok (with_template template e).


Definition createBlockTransformer (ty : string) (t : BlockTransformer)
    (e : Engine) : Engine :=
  {| template := template e; context := context e;
     variableResolvers := variableResolvers e;
     blockTransformers := <[ty := t]> (blockTransformers e); next := next e |}.

Definition createAnnotationTransformer (name : string)
    (t : AnnotationTransformer) (e : Engine) : Engine :=
  let c := context e in
  with_context
    {| pageId := pageId c; pageProperties := pageProperties c;
       metadata := metadata c; block := block c;
       blockTree := blockTree c; variableData := variableData c;
       annotationTransformers := <[name := t]> (annotationTransformers c) |} e.

Definition addToCollector (variable content : string) (e : Engine) : Engine :=
  let vd := variableDataCollector e in
  let vd1 := if JsMap.has variable vd then vd else JsMap.set variable [] vd in
  let collector := default [] (JsMap.get variable vd1) in
  with_collector (JsMap.set variable (collector ++ [content]) vd1) e.

(** The names every plain object inherits from [Object.prototype] as
    functions. *)
Definition objectPrototypeFunctions : list string :=
  ["hasOwnProperty"; "isPrototypeOf"; "propertyIsEnumerable";
   "toLocaleString"; "toString"; "valueOf"; "__defineGetter__";
   "__defineSetter__"; "__lookupGetter__"; "__lookupSetter__"].

(** What a plain object with no property [name] of its own gives for
    [name], as the text [String()] makes of it: [__proto__] is the
    prototype, an object; [constructor] is the function [Object]; the other
    inherited members are functions of their own name.  The texts of the
    functions are the ones V8 gives. *)
Definition inheritedText (name : string) : option string :=
  if decide (name = "__proto__") then Some "[object Object]"
  else if decide (name = "constructor")
  then Some "function Object() { [native code] }"
  else if decide (name ∈ objectPrototypeFunctions)
  then Some ("function " +:+ name +:+ "() { [native code] }")
  else None.

(** [resolvedVariables[name]] for the plain object filled by
    [resolvedVariables[k] = v] over [entries].  Assigning a string to
    [__proto__] does nothing, so that name always reads the prototype; any
    other name reads its own property when there is one, and the inherited
    member otherwise. *)
Definition plainObjectGet (entries : list (string * string)) (name : string)
  : option string :=
  if decide (name = "__proto__") then inheritedText name
  else
    match JsMap.get name entries with
    | Some v => Some v
    | None => inheritedText name
    end.

(** [renderTemplate]: the variables are resolved in the map's order into a
    plain object, then one pass replaces every placeholder by
    [resolvedVariables[name] || ''], made a string. *)
Definition renderTemplate (e : Engine) : Res string :=
  resolvedVariables <-
    mapRes (fun entry : string * list string =>
              let name := fst entry in
              let resolver :=
                default defaultResolver (JsMap.get name (variableResolvers e)) in
              v <- resolver name (context e) ;; Ok (name, v))
           (variableDataCollector e) ;;
  Ok (Placeholder.replaceAll
        (fun name => default "" (plainObjectGet resolvedVariables name))
        0 (template e)).

(** [resetCollectors]: every entry of the map is set again, [imports] to
    the array it had and every other name to a new empty array. *)
Definition resetCollectors (e : Engine) : Engine :=
  let imports := default [] (JsMap.get "imports" (variableDataCollector e)) in
  with_collector
    (fold_left
       (fun vd name =>
          JsMap.set name (if decide (name = "imports") then imports else []) vd)
       (JsMap.keys (variableDataCollector e))
       (variableDataCollector e)) e.

Definition updateContext (data : ChainData) (e : Engine) : Engine :=
  let c := context e in
  with_context
    {| pageId := data_pageId data;
       pageProperties := properties (data_blockTree data);
       metadata := data_metadata data ∪ metadata c;
       block := block c;
       blockTree := blocks (data_blockTree data);
       variableData := variableData c;
       annotationTransformers := annotationTransformers c |} e.

(** ** Rich text *)

(** Truthiness of [item.href] (a string or [null]). *)
Definition hasHref (h : option string) : bool :=
  match h with
  | Some u => Str.nonempty u
  | None => false
  end.

(** The loop over [Object.entries(item.annotations)]: an entry whose value
    is truthy and whose name has a registered transformer rewrites [text]. *)
Fixpoint applyAnnotations (reg : gmap string AnnotationTransformer)
    (itemAnnotations : list (string * JsValue))
    (metadata : option ContextMetadata)
    (entries : list (string * JsValue)) (text : string) : Res string :=
  match entries with
  | [] => Ok text
  | (name, value) :: rest =>
      match (if truthy value then reg !! name else None) with
      | Some t =>
          text' <- ann_transform t
                     {| text := text; in_annotations := Some itemAnnotations;
                        in_metadata := metadata; link := None |} ;;
          applyAnnotations reg itemAnnotations metadata rest text'
      | None => applyAnnotations reg itemAnnotations metadata rest text
      end
  end.

(** Reading [.transform] of an [undefined] [annotations.link]; the message
    is the one V8 gives. *)
Definition linkUndefined : Thrown :=
  ErrorObj "Cannot read properties of undefined (reading 'transform')".

(** The callback [processRichText] maps over the spans. *)
Definition processRichTextItem (reg : gmap string AnnotationTransformer)
    (metadata : option ContextMetadata) (item : RichTextItemResponse)
  : Res string :=
  let link := href item in
  text <- applyAnnotations reg (annotations item) metadata
            (annotations item) (plain_text item) ;;
  if hasHref (href item) then
    match reg !! "link" with
    | None => Throw linkUndefined
    | Some t =>
        ann_transform t
          {| text := text; in_annotations := None; in_metadata := None;
             link := if hasHref link
                     then Some {| url := default "" link |} else None |}
    end
  else Ok text.

(** [processRichText].  The spans' promises are awaited together; when
    several reject, the model reports the first in index order. *)
Definition processRichText (c : RendererContext)
    (richText : list RichTextItemResponse) (metadata : option ContextMetadata)
  : Res string :=
  results <- mapRes (processRichTextItem (annotationTransformers c) metadata)
               richText ;;
  Ok (Str.join "" results).

(** ** Blocks and the pipeline *)

(** [new Error(prefix + (error instanceof Error ? error.message : String(error)))] *)
Definition wrapError (prefix : string) (x : Thrown) : Thrown :=
  ErrorObj (prefix +:+ errorText x).

(** The context built for one block: [this.context] with [block] set and
    the caller's metadata, if any, spread over the engine's. *)
Definition blockContext (b : Block) (md : option ContextMetadata) (e : Engine)
  : RendererContext :=
  with_block b (default ∅ md ∪ metadata (context e)) (context e).

Definition processBlock (b : Block) (md : option ContextMetadata) (e : Engine)
  : Res string * Engine :=
  let blockType := type b in
  match blockTransformers e !! blockType with
  | None => (Ok "", e)
  | Some transformer =>
      match transform transformer (blockContext b md e) with
      | (Throw x, vd) =>
          (Throw (wrapError "Failed to process block: " x), with_collector vd e)
      | (Ok output, vd) =>
          let e1 := with_collector vd e in
          let e2 :=
            match imports transformer with
            | Some (i :: r) => addImports (i :: r) e1
            | _ => e1
            end in
          let target :=
            match targetVariable transformer with
            | Some v => if Str.nonempty v then v else "content"
            | None => "content"
            end in
          let e3 :=
            if JsMap.has target (variableDataCollector e2) then e2
            else addVariable target None e2 in
          (Ok output, addToCollector target output e3)
      end
  end.

(** The loop of [process]: one block after the other, the first failure
    ending it. *)
Fixpoint processBlocks (bs : list Block) (e : Engine) : Res unit * Engine :=
  match bs with
  | [] => (Ok tt, e)
  | b :: rest =>
      match processBlock b None e with
      | (Ok _, e') => processBlocks rest e'
      | (Throw x, e') => (Throw x, e')
      end
  end.

(** [process]: the outcome and the instance as the call leaves it.  The
    call of the next stage stands inside the [try]: when the call itself
    throws, the [catch] wraps what it threw; when it returns a promise, the
    promise is returned without being awaited, so its rejection passes as
    it is. *)
Definition process (data : ChainData) (e : Engine) : Res ChainData * Engine :=
  let e1 := resetCollectors (updateContext data e) in
  match processBlocks (blocks (data_blockTree data)) e1 with
  | (Throw x, e2) => (Throw (wrapError "Renderer failed: " x), e2)
  | (Ok _, e2) =>
      match renderTemplate e2 with
      | Throw x => (Throw (wrapError "Renderer failed: " x), e2)
      | Ok content =>
          let data' := with_content content data in
          match next e2 with
          | Some nextProcess =>
              match nextProcess data' with
              | Raised x => (Throw (wrapError "Renderer failed: " x), e2)
              | Promised outcome => (outcome, e2)
              end
          | None => (Ok data', e2)
          end
      end
  end.

(** ** The MDX annotation transformers (mdx/transformers/annotations.ts) *)

Module Mdx.

(** [metadata?.html], as a condition. *)
Definition html (md : option ContextMetadata) : bool :=
  match md with
  | Some m => match m !! "html" with Some v => truthy v | None => false end
  | None => false
  end.

Definition bold : AnnotationTransformer :=
  {| ann_transform := fun a =>
       Ok (if negb (html (in_metadata a)) then "**" +:+ text a +:+ "**"
           else "<strong>" +:+ text a +:+ "</strong>") |}.

Definition italic : AnnotationTransformer :=
  {| ann_transform := fun a =>
       Ok (if negb (html (in_metadata a)) then "*" +:+ text a +:+ "*"
           else "<i>" +:+ text a +:+ "</i>") |}.

Definition linkT : AnnotationTransformer :=
  {| ann_transform := fun a =>
       match link a with
       | Some l =>
           if negb (Str.nonempty (url l)) then Ok (text a)
           else if negb (html (in_metadata a))
           then Ok ("[" +:+ text a +:+ "](" +:+ url l +:+ ")")
           else Ok ("<a href=" +:+ quoted (url l) +:+ ">" +:+ text a +:+ "</a>")
       | None => Ok (text a)
       end |}.

Definition strikethrough : AnnotationTransformer :=
  {| ann_transform := fun a =>
       Ok (if negb (html (in_metadata a)) then "~~" +:+ text a +:+ "~~"
           else "<strike>" +:+ text a +:+ "</strike>") |}.

Definition code : AnnotationTransformer :=
  {| ann_transform := fun a =>
       Ok (if html (in_metadata a) then "<code>" +:+ text a +:+ "</code>"
           else "`" +:+ text a +:+ "`") |}.

Definition underline : AnnotationTransformer :=
  {| ann_transform := fun a => Ok ("<u>" +:+ text a +:+ "</u>") |}.

Definition equation : AnnotationTransformer :=
  {| ann_transform := fun a =>
       if negb (html (in_metadata a)) then Ok ("$" +:+ text a +:+ "$")
       else Ok ("<code>" +:+ text a +:+ "</code>") |}.

(** The exported table, in the order of its entries. *)
Definition annotationTransformers : list (string * AnnotationTransformer) :=
  [("bold", bold); ("italic", italic); ("strikethrough", strikethrough);
   ("code", code); ("underline", underline); ("link", linkT);
   ("equation", equation)].

End Mdx.

(** ** Observations and sample inputs *)

(** The [imports] collector of an instance ([[]] when there is none). *)
Definition importsOf (e : Engine) : list string :=
  default [] (JsMap.get "imports" (variableDataCollector e)).

(** The instance [new BaseRendererPlugin()] builds. *)
Definition baseEngine : Engine :=
  match newBaseRendererPlugin with
  | Ok e => e
  | Throw _ => blank
  end.

Definition paragraphHello : Block :=
  {| type := "paragraph";
     rich_text := [ {| plain_text := "Hello"; href := None; annotations := [] |} ];
     children := [] |}.

(** The input an annotation transformer gets in the flag cascade, and the
    one the [link] transformer gets. *)
Definition flagInput (item : RichTextItemResponse)
    (md : option ContextMetadata) (t : string) : AnnotationInput :=
  {| text := t; in_annotations := Some (annotations item);
     in_metadata := md; link := None |}.


(** Entries that rewrite nothing: the flag is off or has no transformer. *)
Definition inactive (reg : gmap string AnnotationTransformer)
    (entry : string * JsValue) : Prop :=
  truthy entry.2 = false ∨ reg !! entry.1 = None.

(** A context with the MDX transformers for bold, italic and link. *)
Definition mdxContext : RendererContext :=
  context
    (createAnnotationTransformer "link" Mdx.linkT
       (createAnnotationTransformer "italic" Mdx.italic
          (createAnnotationTransformer "bold" Mdx.bold baseEngine))).

(** "Hello", bold and italic, linked; the entries are in the order the
    Notion API declares them. *)
Definition helloLinked : RichTextItemResponse :=
  {| plain_text := "Hello";
     href := Some "https://example.com";
     annotations :=
       [("bold", JBool true); ("italic", JBool true);
        ("strikethrough", JBool false); ("underline", JBool false);
        ("code", JBool false); ("color", JStr "default")] |}.

(** A paragraph transformer that throws [new Error("boom")]. *)
Definition throwingTransformer : BlockTransformer :=
  {| transform := fun c => (Throw (ErrorObj "boom"), variableData c);
     imports := None;
     targetVariable := None |}.





Definition onePage (bs : list Block) (md : ContextMetadata) : ChainData :=
  {| data_pageId := "page-1";
     data_blockTree := {| blocks := bs; properties := ∅ |};
     data_metadata := md;
     content := None |}.

Definition metadataOf (e : Engine) : ContextMetadata := metadata (context e).

(** The [content] field of the record [process] returned, if it returned
    one. *)
Definition rendered (r : Res ChainData) : option string :=
  match r with
  | Ok d => content d
  | Throw _ => None
  end.

(** The condition [validateTemplate] tests. *)
Definition hasRequired (t : string) : bool :=
  Str.includes "{{{content}}}" t && Str.includes "{{{imports}}}" t.

(** The three characters a, double quote, b. *)
Definition quoteInside : string :=
  "a" +:+ Str.of_char Str.dquote +:+ "b".

(** Transformers that take nothing out of the [imports] collector: what
    it held when [transform] was called is still there, in front, when
    [transform] is done.  A transformer that only computes text is one, and
    so is one that has the engine process child blocks. *)
Definition keepsImports (e : Engine) : Prop :=
  forall ty T c,
    blockTransformers e !! ty = Some T ->
    default [] (JsMap.get "imports" (variableData c))
      `prefix_of` default [] (JsMap.get "imports" (transform T c).2).

(** A paragraph transformer that passes the block's rich text through, and
    an image transformer that declares an import. *)
Definition paragraphTransformer : BlockTransformer :=
  {| transform := fun c =>
       (match block c with
        | Some b => processRichText c (rich_text b) None
        | None => Ok ""
        end, variableData c);
     imports := None;
     targetVariable := None |}.

Definition imageTransformer : BlockTransformer :=
  {| transform := fun c => (Ok "<Image />", variableData c);
     imports := Some ["import Image from 'image'"];
     targetVariable := Some "content" |}.

Definition imageBlock : Block :=
  {| type := "image"; rich_text := []; children := [] |}.

Definition boldHello : Block :=
  {| type := "paragraph";
     rich_text :=
       [ {| plain_text := "Hello"; href := None;
            annotations := [("bold", JBool true); ("italic", JBool false)] |} ];
     children := [] |}.

Definition sampleEngine : Engine :=
  createBlockTransformer "image" imageTransformer
    (createBlockTransformer "paragraph" paragraphTransformer
       (createAnnotationTransformer "bold" Mdx.bold baseEngine)).



(** The sample instance after a first invocation on a paragraph and an
    image, and two inputs whose metadata share the key [draft]. *)
Definition afterFirstCall : Engine :=
  (process (onePage [boldHello; imageBlock] ∅) sampleEngine).2.

Definition firstData : ChainData :=
  onePage [] (<["author" := JStr "ann"]> (<["draft" := JBool true]> ∅)).

Definition secondData : ChainData :=
  onePage [] (<["draft" := JBool false]> ∅).

(** ** Bulk registration *)

(** [createBlockTransformers]: the entries of a partial record, in the
    order [Object.entries] gives them; an entry whose value is [undefined]
    is passed over. *)
Definition createBlockTransformers
    (transformers : list (string * option BlockTransformer)) (e : Engine)
  : Engine :=
  fold_left
    (fun e entry =>
       match entry.2 with
       | Some transformer => createBlockTransformer entry.1 transformer e
       | None => e
       end)
    transformers e.

Definition createAnnotationTransformers
    (transformers : list (string * AnnotationTransformer)) (e : Engine)
  : Engine :=
  fold_left
    (fun e entry => createAnnotationTransformer entry.1 entry.2 e)
    transformers e.

(** ** Property values (mdx/helpers.ts) *)

(** Modelled from the spec: the parts of a page property that
    [extractPropertyValue] reads.  A date has a start and maybe an end; a
    user has an id and maybe a name; a file is external or uploaded, with
    its url. *)
Record DateValue := {
  start : string;
  date_end : option string
}.

Record UserRef := {
  user_name : option string;
  user_id : string
}.

Inductive FileRef : Type :=
  | ExternalFile (file_url : string)
  | UploadedFile (file_url : string).

Inductive FormulaValue : Type :=
  | FormulaString (value : option string)
  | FormulaNumber (value : option SafeInteger)
  | FormulaBoolean (value : option bool)
  | FormulaDate (value : option DateValue).

(** Modelled from the spec: the tagged union of page properties, one
    constructor for each [type] the function has a case for, with the
    fields that case reads, and [OtherProperty] for every other [type].  A
    rollup comes as one constructor for each of its three result types; a
    number is a safe integer, as in [JsValue]. *)
Inductive NotionPropertyValue : Type :=
  | TitleProperty (title : list RichTextItemResponse)
  | RichTextProperty (spans : list RichTextItemResponse)
  | SelectProperty (name : option string)
  | MultiSelectProperty (names : list string)
  | DateProperty (date : option DateValue)
  | NumberProperty (number : option SafeInteger)
  | CheckboxProperty (checkbox : bool)
  | UrlProperty (value : option string)
  | EmailProperty (email : option string)
  | PhoneNumberProperty (phone_number : option string)
  | CreatedTimeProperty (created_time : string)
  | CreatedByProperty (created_by : UserRef)
  | LastEditedTimeProperty (last_edited_time : string)
  | LastEditedByProperty (last_edited_by : UserRef)
  | FormulaProperty (formula : FormulaValue)
  | RollupNumber (number : option SafeInteger)
  | RollupDate (date : option DateValue)
  | RollupArray (array : list NotionPropertyValue)
  | FilesProperty (files : list FileRef)
  | PeopleProperty (people : list UserRef)
  | RelationProperty (ids : list string)
  | OtherProperty (type_tag : string).

(** [s || ''] for a string that may be missing. *)
Definition orEmpty (s : option string) : string :=
  match s with
  | Some v => v
  | None => ""
  end.

(** [person.name || person.id] *)
Definition nameOrId (u : UserRef) : string :=
  match user_name u with
  | Some n => if Str.nonempty n then n else user_id u
  | None => user_id u
  end.

(** [spans[0]?.plain_text || ''] *)
Definition firstPlainText (spans : list RichTextItemResponse) : string :=
  match spans with
  | [] => ""
  | item :: _ => plain_text item
  end.

(** [date?.start || ''] *)
Definition startOrEmpty (d : option DateValue) : string :=
  match d with
  | Some v => start v
  | None => ""
  end.

(** The [switch] of [extractPropertyValue], for a property that is there. *)
Fixpoint extractProperty (property : NotionPropertyValue) : JsValue :=
  match property with
  | TitleProperty title => JStr (firstPlainText title)
  | RichTextProperty spans => JStr (firstPlainText spans)
  | SelectProperty name => JStr (orEmpty name)
  | MultiSelectProperty names => JArr (map JStr names)
  | DateProperty None => JStr ""
  | DateProperty (Some d) =>
      match date_end d with
      | Some e =>
          if Str.nonempty e then JStr (start d +:+ " to " +:+ e)
          else JStr (start d)
      | None => JStr (start d)
      end
  | NumberProperty number => JNum (default zero number)
  | CheckboxProperty checkbox => JBool checkbox
  | UrlProperty value => JStr (orEmpty value)
  | EmailProperty email => JStr (orEmpty email)
  | PhoneNumberProperty phone_number => JStr (orEmpty phone_number)
  | CreatedTimeProperty created_time => JStr created_time
  | CreatedByProperty created_by => JStr (nameOrId created_by)
  | LastEditedTimeProperty last_edited_time => JStr last_edited_time
  | LastEditedByProperty last_edited_by => JStr (nameOrId last_edited_by)
  | FormulaProperty (FormulaString value) => JStr (orEmpty value)
  | FormulaProperty (FormulaNumber value) => JNum (default zero value)
  | FormulaProperty (FormulaBoolean (Some b)) => JBool b
  | FormulaProperty (FormulaBoolean None) => JNull
  | FormulaProperty (FormulaDate value) => JStr (startOrEmpty value)
  | RollupNumber number => JNum (default zero number)
  | RollupDate date => JStr (startOrEmpty date)
  | RollupArray array => JArr (map extractProperty array)
  | FilesProperty files =>
      JArr (map (fun file =>
                   match file with
                   | ExternalFile u => JStr u
                   | UploadedFile u => JStr u
                   end) files)
  | PeopleProperty people => JArr (map (fun person => JStr (nameOrId person)) people)
  | RelationProperty ids => JArr (map JStr ids)
  | OtherProperty _ => JNull
  end.

(** [extractPropertyValue]: [null] for a property that is missing. *)
Definition extractPropertyValue (property : option NotionPropertyValue)
  : JsValue :=
  match property with
  | None => JNull
  | Some p => extractProperty p
  end.

(** ** Predicates used in the further properties *)

(** [transformer.targetVariable || 'content'] *)
Definition targetOf (T : BlockTransformer) : string :=
  match targetVariable T with
  | Some v => if Str.nonempty v then v else "content"
  | None => "content"
  end.

(** Two instances that differ in their collectors at most. *)
Definition sameButCollectors (e e' : Engine) : Prop :=
  template e' = template e
  ∧ variableResolvers e' = variableResolvers e
  ∧ blockTransformers e' = blockTransformers e
  ∧ next e' = next e
  ∧ with_variableData [] (context e') = with_variableData [] (context e).

(** What a block contributes to [content] on instance [e]: nothing when its
    type has no transformer; [out] when its transformer targets [content],
    returns [out] for this block and leaves the collectors alone. *)
Definition emits (e : Engine) (b : Block) (o : option string) : Prop :=
  match blockTransformers e !! type b with
  | None => o = None
  | Some T =>
      exists out,
        o = Some out
        ∧ targetOf T = "content"
        ∧ forall c, block c = Some b -> transform T c = (Ok out, variableData c)
  end.

(** A non-empty string of word characters: what [\w+] matches whole. *)
Fixpoint wordChars (w : string) : bool :=
  match w with
  | EmptyString => true
  | String c r => Str.isWord c && wordChars r
  end.

Definition identifier (w : string) : bool := Str.nonempty w && wordChars w.

(** A text in which no placeholder can start: it has no opening brace. *)
Fixpoint noOpenBrace (s : string) : bool :=
  match s with
  | EmptyString => true
  | String c r => negb (bool_decide (c = "{"%char)) && noOpenBrace r
  end.

(** [this.variableResolvers.get(name) || this.defaultResolver] *)
Definition resolverOf (e : Engine) (name : string) : VariableResolver :=
  default defaultResolver (JsMap.get name (variableResolvers e)).

(** What the placeholder [name] becomes on instance [e] when [v] gives the
    resolved value of each registered variable: that value when [name] has
    a collector; otherwise the text of the member a plain object inherits
    under that name, if there is one, and the empty string if not.
    [__proto__] always reads the inherited member. *)
Definition renderedValue (e : Engine) (v : string -> string) (name : string)
  : string :=
  if decide (name = "__proto__") then "[object Object]"
  else if JsMap.has name (variableDataCollector e) then v name
  else default "" (inheritedText name).

(** A value with no [undefined] in it, at any depth. *)
Fixpoint noUndefined (v : JsValue) : bool :=
  match v with
  | JUndefined => false
  | JArr elems => forallb noUndefined elems
  | JObj fields => forallb (fun field => noUndefined field.2) fields
  | _ => true
  end.

(** Every double quote of [s] stands right after a backslash;
    [afterBackslash] says whether the character before [s] is one. *)
Fixpoint quotesEscaped (afterBackslash : bool) (s : string) : bool :=
  match s with
  | EmptyString => true
  | String c r =>
      if decide (c = Str.dquote) then afterBackslash && quotesEscaped false r
      else quotesEscaped (bool_decide (c = Str.backslash)) r
  end.

Fixpoint noQuote (s : string) : bool :=
  match s with
  | EmptyString => true
  | String c r => negb (bool_decide (c = Str.dquote)) && noQuote r
  end.

(** What a block adds to [imports] on instance [e]: nothing when its type
    has no transformer; the declared imports when its transformer targets
    another collector, returns a text and leaves the collectors alone. *)
Definition declares (e : Engine) (b : Block) (imps : list string) : Prop :=
  match blockTransformers e !! type b with
  | None => imps = []
  | Some T =>
      imps = default [] (imports T)
      ∧ targetOf T ≠ "imports"
      ∧ forall c, exists out, transform T c = (Ok out, variableData c)
  end.

(** * Properties *)

(** ** Strings and maps *)

Section StrFacts.
Implicit Types s p needle : string.

Lemma strip_refl s : Str.strip s s = Some "".
Proof.
  induction s as [|c s IH]; simpl; [done|].
  by rewrite decide_True.
Qed.

Lemma strip_app p s : Str.strip p (p +:+ s) = Some s.
Proof.
  induction p as [|c p IH]; simpl; [done|].
  by rewrite decide_True.
Qed.

Lemma includes_refl s : Str.includes s s = true.
Proof.
  destruct s as [|c s]; [done|].
  cbn [Str.includes]. unfold Str.startsWith.
  by rewrite strip_refl.
Qed.

Lemma includes_cons needle c s :
  Str.includes needle s = true -> Str.includes needle (String c s) = true.
Proof.
  intros H. cbn [Str.includes]. rewrite H. apply orb_true_r.
Qed.

Lemma includes_app_r needle p s :
  Str.includes needle s = true -> Str.includes needle (p +:+ s) = true.
Proof.
  intros H. induction p as [|c p IH]; [done|].
  simpl String.append. by apply includes_cons.
Qed.


End StrFacts.

Section JsMapFacts.
Context {V : Type}.
Implicit Types (m : list (string * V)) (k : string) (v : V).

Lemma get_set_eq k v m : JsMap.get k (JsMap.set k v m) = Some v.
Proof.
  induction m as [|[k' v'] m IH]; simpl.
  - by rewrite decide_True.
  - destruct (decide (k = k')) as [->|Hne]; simpl.
    + by rewrite decide_True.
    + by rewrite decide_False.
Qed.

Lemma get_set_ne k k' v m :
  k ≠ k' -> JsMap.get k' (JsMap.set k v m) = JsMap.get k' m.
Proof.
  intros Hne. induction m as [|[k0 v0] m IH]; simpl.
  - by rewrite decide_False.
  - destruct (decide (k = k0)) as [->|Hk]; simpl.
    + by rewrite !decide_False.
    + destruct (decide (k' = k0)); [done|apply IH].
Qed.

Lemma get_set k k' v m :
  JsMap.get k' (JsMap.set k v m)
  = if decide (k' = k) then Some v else JsMap.get k' m.
Proof.
  destruct (decide (k' = k)) as [->|Hne].
  - apply get_set_eq.
  - by apply get_set_ne.
Qed.

Lemma has_keys k m : JsMap.has k m = true <-> k ∈ JsMap.keys m.
Proof.
  unfold JsMap.has, JsMap.keys.
  induction m as [|[k' v'] m IH]; simpl.
  - split; [done|]. by intros ?%elem_of_nil.
  - rewrite elem_of_cons. destruct (decide (k = k')) as [->|Hne].
    + split; [by left|done].
    + rewrite IH. split; [by right|]. by intros [?|?].
Qed.

Lemma get_keys k m : is_Some (JsMap.get k m) <-> k ∈ JsMap.keys m.
Proof.
  rewrite <- has_keys. unfold JsMap.has.
  destruct (JsMap.get k m); split; intros H; done.
Qed.

Lemma keys_set_in k v m :
  k ∈ JsMap.keys m -> JsMap.keys (JsMap.set k v m) = JsMap.keys m.
Proof.
  unfold JsMap.keys. induction m as [|[k' v'] m IH]; simpl.
  - by intros ?%elem_of_nil.
  - intros [->|Hin]%elem_of_cons.
    + by rewrite decide_True.
    + destruct (decide (k = k')) as [->|Hne]; simpl; [done|].
      by rewrite IH.
Qed.

Lemma set_set k v v' m :
  JsMap.set k v (JsMap.set k v' m) = JsMap.set k v m.
Proof.
  induction m as [|[k' v0] m IH]; simpl.
  - by rewrite decide_True.
  - destruct (decide (k = k')) as [->|Hne]; simpl.
    + by rewrite decide_True.
    + rewrite decide_False by done. by rewrite IH.
Qed.

(** Setting again every name of [ks], as the loop of [resetCollectors]
    does, with the value [f] gives for the name. *)
Lemma get_fold_set (f : string -> V) ks m k :
  JsMap.get k (fold_left (fun vd n => JsMap.set n (f n) vd) ks m)
  = if decide (k ∈ ks) then Some (f k) else JsMap.get k m.
Proof.
  revert m. induction ks as [|n ks IH]; intros m; cbn [fold_left].
  - rewrite decide_False; [done|]. by intros ?%elem_of_nil.
  - rewrite IH, get_set.
    destruct (decide (k ∈ ks)) as [Hin|Hnin].
    + rewrite decide_True; [done|]. by apply list_elem_of_further.
    + destruct (decide (k = n)) as [->|Hne].
      * rewrite decide_True; [done|]. apply list_elem_of_here.
      * rewrite decide_False; [done|].
        intros [?|?]%elem_of_cons; done.
Qed.

Lemma keys_fold_set (f : string -> V) ks m :
  ks ⊆ JsMap.keys m ->
  JsMap.keys (fold_left (fun vd n => JsMap.set n (f n) vd) ks m)
  = JsMap.keys m.
Proof.
  revert m. induction ks as [|n ks IH]; intros m Hsub; cbn [fold_left]; [done|].
  assert (n ∈ JsMap.keys m) as Hn by (apply Hsub, list_elem_of_here).
  rewrite IH; rewrite keys_set_in; try done.
  intros x Hx. by apply Hsub, list_elem_of_further.
Qed.

End JsMapFacts.

(** ** Imports *)

Lemma newBaseRendererPlugin_ok : newBaseRendererPlugin = Ok baseEngine.
Proof. reflexivity. Qed.

Section PushImport.
Implicit Types (acc vs : list string) (x imp : string).

Lemma pushImport_elem acc imp x :
  x ∈ pushImport acc imp <-> x ∈ acc ∨ x = imp.
Proof.
  unfold pushImport. destruct (decide (imp ∈ acc)) as [Hin|Hnin].
  - split; [by left|]. intros [?| ->]; done.
  - rewrite elem_of_app, list_elem_of_singleton. done.
Qed.

Lemma pushImport_NoDup acc imp : NoDup acc -> NoDup (pushImport acc imp).
Proof.
  intros Hnd. unfold pushImport.
  destruct (decide (imp ∈ acc)) as [Hin|Hnin]; [done|].
  apply NoDup_app. split_and!; [done| |apply NoDup_singleton].
  intros y Hy ->%list_elem_of_singleton. done.
Qed.

Lemma fold_pushImport_elem vs acc x :
  x ∈ fold_left pushImport vs acc <-> x ∈ acc ∨ x ∈ vs.
Proof.
  revert acc. induction vs as [|v vs IH]; intros acc; cbn [fold_left].
  - rewrite elem_of_nil. tauto.
  - rewrite IH, pushImport_elem, elem_of_cons. tauto.
Qed.

Lemma fold_pushImport_NoDup vs acc :
  NoDup acc -> NoDup (fold_left pushImport vs acc).
Proof.
  revert acc. induction vs as [|v vs IH]; intros acc Hnd; cbn [fold_left].
  - done.
  - by apply IH, pushImport_NoDup.
Qed.

Lemma fold_pushImport_prefix vs acc :
  acc `prefix_of` fold_left pushImport vs acc.
Proof.
  revert acc. induction vs as [|v vs IH]; intros acc; cbn [fold_left].
  - done.
  - etrans; [|apply IH]. unfold pushImport.
    destruct (decide (v ∈ acc)); [done|]. by apply prefix_app_r.
Qed.

(** Values that are all present already change nothing. *)
Lemma fold_pushImport_present vs acc :
  (forall x, x ∈ vs -> x ∈ acc) -> fold_left pushImport vs acc = acc.
Proof.
  revert acc. induction vs as [|v vs IH]; intros acc Hall; cbn [fold_left].
  - done.
  - unfold pushImport at 2. rewrite decide_True.
    + apply IH. intros x Hx. by apply Hall, list_elem_of_further.
    + apply Hall, list_elem_of_here.
Qed.

Lemma fold_pushImport_idem vs acc :
  fold_left pushImport vs (fold_left pushImport vs acc)
  = fold_left pushImport vs acc.
Proof.
  apply fold_pushImport_present. intros x Hx.
  apply fold_pushImport_elem. by right.
Qed.

End PushImport.

Lemma importsOf_addImports vs e :
  importsOf (addImports vs e) = fold_left pushImport vs (importsOf e).
Proof.
  unfold importsOf, addImports, with_collector, variableDataCollector.
  cbn. by rewrite get_set_eq.
Qed.

Lemma addImports_twice vs e : addImports vs (addImports vs e) = addImports vs e.
Proof.
  unfold addImports at 1. fold (importsOf (addImports vs e)).
  rewrite importsOf_addImports, fold_pushImport_idem.
  unfold addImports, with_collector, with_context, with_variableData,
    variableDataCollector. cbn.
  by rewrite set_set.
Qed.

Lemma importsOf_calls_NoDup (calls : list (list string)) e :
  NoDup (importsOf e) ->
  NoDup (importsOf (fold_left (fun e vs => addImports vs e) calls e)).
Proof.
  revert e. induction calls as [|vs calls IH]; intros e Hnd; cbn [fold_left].
  - done.
  - apply IH. rewrite importsOf_addImports. by apply fold_pushImport_NoDup.
Qed.

(** C9.  [addImports] treats the [imports] collector as a set kept in
    insertion order: one value is appended exactly when the collector does
    not hold it yet; after a call the collector holds what it held and the
    values given, what it held coming first; giving the same values again
    changes nothing; and starting from a new instance no sequence of calls
    makes the collector hold a value twice. *)
Theorem addImports_set_semantics (e : Engine) (vs : list string)
    (calls : list (list string)) :
  (forall v, importsOf (addImports [v] e)
             = if decide (v ∈ importsOf e) then importsOf e
               else importsOf e ++ [v])
  ∧ (forall x, x ∈ importsOf (addImports vs e) <-> x ∈ importsOf e ∨ x ∈ vs)
  ∧ importsOf e `prefix_of` importsOf (addImports vs e)
  ∧ addImports vs (addImports vs e) = addImports vs e
  ∧ (NoDup (importsOf e) -> NoDup (importsOf (addImports vs e)))
  ∧ NoDup (importsOf (fold_left (fun e vs => addImports vs e) calls baseEngine)).
Proof.
  split_and!.
  - intros v. by rewrite importsOf_addImports.
  - intros x. rewrite importsOf_addImports. apply fold_pushImport_elem.
  - rewrite importsOf_addImports. apply fold_pushImport_prefix.
  - apply addImports_twice.
  - rewrite importsOf_addImports. apply fold_pushImport_NoDup.
  - apply importsOf_calls_NoDup. cbn. apply NoDup_nil_2.
Qed.

Lemma addImports_set_semantics_witness :
  importsOf (addImports ["a"; "b"; "a"] baseEngine) = ["a"; "b"]
  ∧ addImports ["a"; "b"; "a"] (addImports ["a"; "b"; "a"] baseEngine)
    = addImports ["a"; "b"; "a"] baseEngine
  ∧ NoDup (importsOf (addImports ["a"; "b"; "a"] baseEngine)).
Proof.
  destruct (addImports_set_semantics baseEngine ["a"; "b"; "a"] [])
    as (_ & _ & _ & Hidem & Hnodup & _).
  split_and!.
  - reflexivity.
  - exact Hidem.
  - apply Hnodup. apply NoDup_nil_2.
Defined.

(** ** Resetting the collectors *)

Lemma collector_resetCollectors e :
  variableDataCollector (resetCollectors e)
  = fold_left
      (fun vd name =>
         JsMap.set name (if decide (name = "imports") then importsOf e else []) vd)
      (JsMap.keys (variableDataCollector e)) (variableDataCollector e).
Proof. reflexivity. Qed.

Lemma collector_updateContext data e :
  variableDataCollector (updateContext data e) = variableDataCollector e.
Proof. reflexivity. Qed.

Lemma get_resetCollectors name e :
  JsMap.get name (variableDataCollector (resetCollectors e))
  = if decide (name ∈ JsMap.keys (variableDataCollector e))
    then Some (if decide (name = "imports") then importsOf e else [])
    else JsMap.get name (variableDataCollector e).
Proof.
  rewrite collector_resetCollectors.
  apply (get_fold_set
           (fun n => if decide (n = "imports") then importsOf e else [])).
Qed.

Lemma importsOf_reset_update data e :
  importsOf (resetCollectors (updateContext data e)) = importsOf e.
Proof.
  unfold importsOf at 1.
  rewrite get_resetCollectors, collector_updateContext.
  by destruct (decide ("imports" ∈ JsMap.keys (variableDataCollector e))).
Qed.

Lemma importsOf_with_collector vd e :
  importsOf (with_collector vd e) = default [] (JsMap.get "imports" vd).
Proof. reflexivity. Qed.

Lemma importsOf_addVariable name r e :
  importsOf (addVariable name r e) = importsOf e.
Proof.
  unfold addVariable.
  destruct (JsMap.has name (variableDataCollector e)) eqn:Hhas.
  - by destruct r.
  - assert (importsOf (with_collector
                         (JsMap.set name [] (variableDataCollector e)) e)
            = importsOf e) as H.
    { rewrite importsOf_with_collector, get_set.
      destruct (decide ("imports" = name)) as [<-|Hne]; [|done].
      unfold importsOf. unfold JsMap.has in Hhas.
      by destruct (JsMap.get "imports" (variableDataCollector e)). }
    by destruct r.
Qed.

Lemma importsOf_addToCollector name out e :
  importsOf e `prefix_of` importsOf (addToCollector name out e).
Proof.
  unfold addToCollector. rewrite importsOf_with_collector, get_set.
  destruct (decide ("imports" = name)) as [<-|Hne].
  - cbn [default].
    destruct (JsMap.has "imports" (variableDataCollector e)) eqn:Hhas.
    + fold (importsOf e). by apply prefix_app_r.
    + rewrite get_set_eq. unfold importsOf. unfold JsMap.has in Hhas.
      destruct (JsMap.get "imports" (variableDataCollector e)); [done|].
      apply prefix_nil.
  - destruct (JsMap.has name (variableDataCollector e)); [done|].
    by rewrite get_set_ne.
Qed.

Lemma blockTransformers_processBlock b md e :
  blockTransformers (processBlock b md e).2 = blockTransformers e.
Proof.
  unfold processBlock, addToCollector, addVariable, addImports.
  repeat case_match; reflexivity.
Qed.

Lemma importsOf_processBlock b md e :
  keepsImports e -> importsOf e `prefix_of` importsOf (processBlock b md e).2.
Proof.
  intros Hk. unfold processBlock.
  destruct (blockTransformers e !! type b) as [T|] eqn:HT; [|done].
  pose proof (Hk _ _ (blockContext b md e) HT) as Hvd.
  change (default [] (JsMap.get "imports" (variableData (blockContext b md e))))
    with (importsOf e) in Hvd.
  destruct (transform T (blockContext b md e)) as [[out|x] vd];
    cbn [snd] in *; [|exact Hvd].
  set (e1 := with_collector vd e).
  assert (importsOf e `prefix_of` importsOf e1) as He1 by exact Hvd.
  set (e2 := match imports T with
             | Some (i :: r) => addImports (i :: r) e1
             | _ => e1
             end).
  assert (importsOf e1 `prefix_of` importsOf e2) as He2.
  { subst e2. destruct (imports T) as [[|i r]|]; try done.
    rewrite importsOf_addImports. apply fold_pushImport_prefix. }
  etrans; [exact He1|]. etrans; [exact He2|].
  etrans; [|apply importsOf_addToCollector].
  destruct (JsMap.has _ (variableDataCollector e2)); [done|].
  by rewrite importsOf_addVariable.
Qed.

Lemma importsOf_processBlocks bs e :
  keepsImports e -> importsOf e `prefix_of` importsOf (processBlocks bs e).2.
Proof.
  revert e. induction bs as [|b bs IH]; intros e Hq; cbn [processBlocks]; [done|].
  pose proof (importsOf_processBlock b None e Hq) as Hb.
  pose proof (blockTransformers_processBlock b None e) as Hbt.
  destruct (processBlock b None e) as [[out|x] e']; cbn in *; [|done].
  etrans; [exact Hb|]. apply IH.
  intros ty T c HT. apply (Hq ty T c). by rewrite <- Hbt.
Qed.

Lemma importsOf_process data e :
  keepsImports e -> importsOf e `prefix_of` importsOf (process data e).2.
Proof.
  intros Hq. unfold process.
  set (e1 := resetCollectors (updateContext data e)).
  assert (importsOf e1 = importsOf e) as He1 by apply importsOf_reset_update.
  assert (keepsImports e1) as Hq1 by exact Hq.
  pose proof (importsOf_processBlocks (blocks (data_blockTree data)) e1 Hq1)
    as H.
  rewrite He1 in H.
  destruct (processBlocks _ e1) as [[u|x] e2]; cbn [snd] in *; [|done].
  by repeat case_match.
Qed.

(** The instance [process] leaves, through the state after the blocks. *)
Lemma process_state data e :
  (process data e).2
  = (processBlocks (blocks (data_blockTree data))
       (resetCollectors (updateContext data e))).2.
Proof.
  unfold process.
  destruct (processBlocks _ _) as [[u|x] e2]; cbn [snd]; [|done].
  by repeat case_match.
Qed.

Lemma get_reset_update data e name :
  name ≠ "imports" ->
  JsMap.has name (variableDataCollector e) = true ->
  JsMap.get name (variableDataCollector (resetCollectors (updateContext data e)))
  = Some [].
Proof.
  intros Hne Hhas. rewrite get_resetCollectors, collector_updateContext.
  apply has_keys in Hhas. rewrite decide_True by done.
  by rewrite decide_False.
Qed.

(** C3.  The reset leaves the [imports] collector as it was and makes every
    other registered collector empty, registering and dropping no name.
    [process] makes it before the first block: the instance it leaves is
    the one block processing leaves when started from the reset instance,
    with the imports the instance held when [process] was called and every
    other collector empty; on a page without blocks that is the instance
    [process] leaves.  With transformers that take nothing out of the
    [imports] collector, an invocation ends with the earlier imports still
    there, ahead of the ones it added. *)
Theorem resetCollectors_keeps_imports (e : Engine) :
  JsMap.get "imports" (variableDataCollector (resetCollectors e))
  = JsMap.get "imports" (variableDataCollector e)
  ∧ (forall name, name ≠ "imports" ->
       JsMap.has name (variableDataCollector e) = true ->
       JsMap.get name (variableDataCollector (resetCollectors e)) = Some [])
  ∧ JsMap.keys (variableDataCollector (resetCollectors e))
    = JsMap.keys (variableDataCollector e)
  ∧ (forall data,
       importsOf (resetCollectors (updateContext data e)) = importsOf e)
  ∧ (forall data,
       keepsImports e ->
       importsOf e `prefix_of` importsOf (process data e).2)
  ∧ (forall data,
       (process data e).2
       = (processBlocks (blocks (data_blockTree data))
            (resetCollectors (updateContext data e))).2
       ∧ forall name, name ≠ "imports" ->
           JsMap.has name (variableDataCollector e) = true ->
           JsMap.get name
             (variableDataCollector (resetCollectors (updateContext data e)))
           = Some [])
  ∧ (forall data,
       blocks (data_blockTree data) = [] ->
       importsOf (process data e).2 = importsOf e
       ∧ forall name, name ≠ "imports" ->
           JsMap.has name (variableDataCollector e) = true ->
           JsMap.get name (variableDataCollector (process data e).2)
           = Some []).
Proof.
  split_and!.
  - rewrite get_resetCollectors.
    destruct (decide ("imports" ∈ JsMap.keys (variableDataCollector e)))
      as [Hin|Hnin]; [|done].
    apply get_keys in Hin as [c Hc]. unfold importsOf. by rewrite Hc.
  - intros name Hne Hhas. rewrite get_resetCollectors.
    apply has_keys in Hhas. rewrite decide_True by done.
    by rewrite decide_False.
  - rewrite collector_resetCollectors. by apply keys_fold_set.
  - intros data. apply importsOf_reset_update.
  - intros data. apply importsOf_process.
  - intros data. split; [apply process_state|].
    intros name. apply get_reset_update.
  - intros data Hempty. rewrite process_state, Hempty. cbn [processBlocks snd].
    split; [apply importsOf_reset_update|].
    intros name. apply get_reset_update.
Qed.

Lemma sampleEngine_keepsImports : keepsImports sampleEngine.
Proof.
  intros ty T c HT. unfold sampleEngine, createBlockTransformer in HT.
  cbn [blockTransformers] in HT.
  apply lookup_insert_Some in HT as [[_ <-]|[_ HT]]; [reflexivity|].
  apply lookup_insert_Some in HT as [[_ <-]|[_ HT]]; [reflexivity|].
  change (blockTransformers (createAnnotationTransformer "bold" Mdx.bold
                               baseEngine))
    with (∅ : gmap string BlockTransformer) in HT.
  by rewrite lookup_empty in HT.
Qed.

Lemma afterFirstCall_keepsImports : keepsImports afterFirstCall.
Proof.
  intros ty T c HT. apply (sampleEngine_keepsImports ty T c). exact HT.
Qed.

Lemma resetCollectors_keeps_imports_witness :
  JsMap.get "content" (variableDataCollector afterFirstCall)
  = Some ["**Hello**"; "<Image />"]
  ∧ JsMap.get "content" (variableDataCollector (resetCollectors afterFirstCall))
    = Some []
  ∧ JsMap.get "imports" (variableDataCollector (resetCollectors afterFirstCall))
    = Some ["import Image from 'image'"]
  ∧ ["import Image from 'image'"]
      `prefix_of` importsOf (process (onePage [boldHello] ∅) afterFirstCall).2
  ∧ JsMap.get "content"
      (variableDataCollector (process (onePage [] ∅) afterFirstCall).2)
    = Some []
  ∧ importsOf (process (onePage [] ∅) afterFirstCall).2
    = ["import Image from 'image'"].
Proof.
  destruct (resetCollectors_keeps_imports afterFirstCall)
    as (Himports & Hothers & _ & _ & Hprocess & _ & Hempty).
  destruct (Hempty (onePage [] ∅) eq_refl) as [Hkept Hcleared].
  split_and!.
  - reflexivity.
  - apply Hothers; [done|reflexivity].
  - rewrite Himports. reflexivity.
  - apply (Hprocess (onePage [boldHello] ∅)), afterFirstCall_keepsImports.
  - apply Hcleared; [done|reflexivity].
  - rewrite Hkept. reflexivity.
Defined.

(** Two invocations on one instance: the first has an image block, whose
    transformer declares an import; the second has none, and its rendering
    still starts with that import, while [content] was reset. *)
Example imports_persist_into_next_call :
  let first := process (onePage [boldHello; imageBlock] ∅) sampleEngine in
  let second := process (onePage [boldHello] ∅) first.2 in
  rendered first.1
  = Some ("import Image from 'image'" +:+ Str.of_char Str.newline
          +:+ "**Hello**" +:+ Str.of_char Str.newline +:+ "<Image />")
  ∧ importsOf first.2 = ["import Image from 'image'"]
  ∧ rendered second.1
    = Some ("import Image from 'image'" +:+ Str.of_char Str.newline
            +:+ "**Hello**")
  ∧ JsMap.get "content" (variableDataCollector second.2) = Some ["**Hello**"].
Proof. vm_compute. done. Qed.

(** ** Blocks without a transformer *)

(** C5.  A block whose type has no registered transformer gives the empty
    string and leaves the instance, all collectors included, as it was;
    nothing is thrown. *)
Theorem processBlock_unregistered (b : Block) (md : option ContextMetadata)
    (e : Engine) :
  blockTransformers e !! type b = None ->
  processBlock b md e = (Ok "", e).
Proof.
  intros Hnone. unfold processBlock. by rewrite Hnone.
Qed.

Lemma processBlock_unregistered_witness :
  processBlock paragraphHello None baseEngine = (Ok "", baseEngine).
Proof.
  apply (processBlock_unregistered paragraphHello None baseEngine).
  reflexivity.
Defined.

(** ** Links *)

Lemma mapRes_singleton {A B} (f : A -> Res B) (a : A) (k : list B -> Res B) :
  (forall b, k [b] = Ok b) ->
  (bs <- mapRes f [a] ;; k bs) = f a.
Proof.
  intros Hk. cbn [mapRes]. destruct (f a) as [b|x]; cbn; [apply Hk|done].
Qed.

Lemma mapRes_throws {A B} (f : A -> Res B) (l : list A) (a : A) :
  a ∈ l -> isThrow (f a) = true -> isThrow (mapRes f l) = true.
Proof.
  intros Hin Ha. induction l as [|a' l IH]; [by apply elem_of_nil in Hin|].
  cbn [mapRes]. apply elem_of_cons in Hin as [<-|Hin].
  - destruct (f a); [done|reflexivity].
  - destruct (f a'); [|reflexivity]. cbn.
    specialize (IH Hin). destruct (mapRes f l); [done|reflexivity].
Qed.

Lemma isThrow_true {A} (r : Res A) : isThrow r = true <-> exists x, r = Throw x.
Proof.
  destruct r as [a|x]; cbn; split; try done.
  - by intros [? ?].
  - eauto.
Qed.

Lemma processRichTextItem_linked reg md item u :
  href item = Some u -> Str.nonempty u = true ->
  processRichTextItem reg md item
  = (t <- applyAnnotations reg (annotations item) md (annotations item)
            (plain_text item) ;;
     match reg !! "link" with
     | None => Throw linkUndefined
     | Some L =>
         ann_transform L
           {| text := t; in_annotations := None; in_metadata := None;
              link := Some {| url := u |} |}
     end).
Proof.
  intros Hhref Hu. unfold processRichTextItem, hasHref.
  rewrite Hhref, Hu. reflexivity.
Qed.

Lemma applyAnnotations_inactive reg ia md rest t :
  Forall (inactive reg) rest -> applyAnnotations reg ia md rest t = Ok t.
Proof.
  induction 1 as [|[name value] rest [Hoff|Hnone] _ IH]; cbn [applyAnnotations].
  - done.
  - cbn in Hoff. by rewrite Hoff.
  - cbn in Hnone. rewrite Hnone. by destruct (truthy value).
Qed.




(** C7.  When a span has a link and no transformer is registered under
    [link], [processRichText] throws: no text is returned for the spans. *)
Theorem link_without_transformer_throws (c : RendererContext)
    (richText : list RichTextItemResponse) (md : option ContextMetadata)
    (item : RichTextItemResponse) :
  item ∈ richText -> hasHref (href item) = true ->
  annotationTransformers c !! "link" = None ->
  exists x, processRichText c richText md = Throw x.
Proof.
  intros Hin Hhref Hnone. apply isThrow_true. unfold processRichText.
  assert (isThrow (mapRes (processRichTextItem (annotationTransformers c) md)
                     richText) = true) as Hmap.
  { apply (mapRes_throws _ _ item); [done|].
    unfold processRichTextItem. rewrite Hhref, Hnone.
    by destruct (applyAnnotations _ _ _ _ _). }
  destruct (mapRes _ richText); [done|reflexivity].
Qed.

Lemma link_without_transformer_throws_witness :
  exists x, processRichText (context baseEngine) [helloLinked] None = Throw x.
Proof.
  apply (link_without_transformer_throws (context baseEngine) [helloLinked]
           None helloLinked).
  - apply list_elem_of_here.
  - reflexivity.
  - reflexivity.
Defined.

(** ** Failing blocks *)

Lemma processBlock_throws b md e T x vd :
  blockTransformers e !! type b = Some T ->
  transform T (blockContext b md e) = (Throw x, vd) ->
  processBlock b md e
  = (Throw (wrapError "Failed to process block: " x), with_collector vd e).
Proof.
  intros HT Htr. unfold processBlock. by rewrite HT, Htr.
Qed.

Lemma processBlocks_stops pre b post e e2 e3 x :
  processBlocks pre e = (Ok tt, e2) ->
  processBlock b None e2 = (Throw x, e3) ->
  processBlocks (pre ++ b :: post) e = (Throw x, e3).
Proof.
  revert e. induction pre as [|a pre IH]; intros e Hpre Hb; cbn in *.
  - injection Hpre as <-. by rewrite Hb.
  - destruct (processBlock a None e) as [[out|y] e'].
    + by apply IH.
    + discriminate.
Qed.




(** ** Metadata across invocations *)

Lemma metadataOf_processBlock b md e :
  metadataOf (processBlock b md e).2 = metadataOf e.
Proof.
  unfold processBlock, addToCollector, addVariable, addImports.
  repeat case_match; reflexivity.
Qed.

Lemma metadataOf_processBlocks bs e :
  metadataOf (processBlocks bs e).2 = metadataOf e.
Proof.
  revert e. induction bs as [|b bs IH]; intros e; cbn [processBlocks]; [done|].
  pose proof (metadataOf_processBlock b None e) as Hb.
  destruct (processBlock b None e) as [[out|x] e']; cbn in *.
  - by rewrite IH.
  - done.
Qed.

Lemma metadataOf_process data e :
  metadataOf (process data e).2 = data_metadata data ∪ metadataOf e.
Proof.
  unfold process.
  pose proof (metadataOf_processBlocks (blocks (data_blockTree data))
                (resetCollectors (updateContext data e))) as Hbs.
  destruct (processBlocks _ _) as [[u|x] e2]; cbn in Hbs.
  - repeat case_match; exact Hbs.
  - exact Hbs.
Qed.

(** C8.  After two [process] calls on one instance the context metadata is
    the metadata the first call left, overlaid by the second call's
    incoming metadata: a key of the second call has its value, any other
    key keeps the value it had after the first call, in particular a key
    only the first call set. *)
Theorem metadata_overlaid_across_calls (e : Engine) (d1 d2 : ChainData) :
  metadataOf (process d1 e).2 = data_metadata d1 ∪ metadataOf e
  ∧ metadataOf (process d2 (process d1 e).2).2
    = data_metadata d2 ∪ metadataOf (process d1 e).2
  ∧ (forall k v, data_metadata d2 !! k = Some v ->
       metadataOf (process d2 (process d1 e).2).2 !! k = Some v)
  ∧ (forall k v, data_metadata d2 !! k = None ->
       data_metadata d1 !! k = Some v ->
       metadataOf (process d2 (process d1 e).2).2 !! k = Some v)
  ∧ (forall k, data_metadata d2 !! k = None ->
       metadataOf (process d2 (process d1 e).2).2 !! k
       = metadataOf (process d1 e).2 !! k).
Proof.
  rewrite !metadataOf_process. split_and!; try done.
  - intros k v Hk. by apply lookup_union_Some_l.
  - intros k v Hk2 Hk1. rewrite lookup_union_r by done.
    by apply lookup_union_Some_l.
  - intros k Hk. by rewrite lookup_union_r.
Qed.

Lemma metadata_overlaid_across_calls_witness :
  metadataOf (process secondData (process firstData baseEngine).2).2 !! "draft"
  = Some (JBool false)
  ∧ metadataOf (process secondData (process firstData baseEngine).2).2
      !! "author"
    = Some (JStr "ann").
Proof.
  destruct (metadata_overlaid_across_calls baseEngine firstData secondData)
    as (_ & _ & Hnew & Hold & _).
  split.
  - apply Hnew. reflexivity.
  - apply Hold; reflexivity.
Defined.

(** ** The template *)

Lemma validateTemplate_spec t :
  if hasRequired t then validateTemplate t = Ok tt
  else exists msg, validateTemplate t = Throw (ErrorObj msg).
Proof.
  unfold hasRequired, validateTemplate.
  destruct (Str.includes "{{{content}}}" t); cbn; [|by eexists].
  destruct (Str.includes "{{{imports}}}" t); cbn; [done|by eexists].
Qed.

Lemma hasRequired_nonempty t : hasRequired t = true -> Str.nonempty t = true.
Proof. by destruct t. Qed.

Lemma template_initializeTemplateVariables e :
  template (initializeTemplateVariables e) = template e.
Proof.
  unfold initializeTemplateVariables.
  generalize (Placeholder.matchAll 0 (template e)). intros vars.
  revert e. induction vars as [|v vars IH]; intros e; cbn [fold_left]; [done|].
  rewrite IH. unfold addVariable. by repeat case_match.
Qed.

(** Whether [renderTemplate] throws does not depend on the template. *)
Lemma renderTemplate_throw_independent t e :
  isThrow (renderTemplate (with_template t e)) = isThrow (renderTemplate e).
Proof.
  unfold renderTemplate.
  change (variableDataCollector (with_template t e))
    with (variableDataCollector e).
  change (variableResolvers (with_template t e)) with (variableResolvers e).
  change (context (with_template t e)) with (context e).
  by destruct (mapRes _ (variableDataCollector e)).
Qed.

(** C4 (the code differs at construction).  A template that lacks
    [{{{content}}}] or [{{{imports}}}] makes [setTemplate] throw, on any
    instance; a template with both is accepted and becomes the instance's
    template.  Rendering does not repeat the check: whether
    [renderTemplate] throws is the same for every template, and an instance
    holding a template without placeholders renders it.  Construction does
    not make the check on a template a subclass declares as a field: the
    instance is built whatever that template is, and [process] then renders
    it. *)
Theorem template_checked_when_set (t : string) :
  (hasRequired t = false ->
     forall e, exists msg, setTemplate t e = Throw (ErrorObj msg))
  ∧ (hasRequired t = true ->
     forall e, exists e', setTemplate t e = Ok e' ∧ template e' = t)
  ∧ (forall e,
       isThrow (renderTemplate (with_template t e)) = isThrow (renderTemplate e))
  ∧ renderTemplate (with_template "no placeholder" baseEngine)
    = Ok "no placeholder"
  ∧ newWithTemplateField t = Ok (with_template t baseEngine)
  ∧ hasRequired "no placeholder" = false
  ∧ (process (onePage [] ∅) (with_template "no placeholder" baseEngine)).1
    = Ok (with_content "no placeholder" (onePage [] ∅)).
Proof.
  pose proof (validateTemplate_spec t) as Hv.
  split_and!.
  - intros Hreq. rewrite Hreq in Hv. destruct Hv as [msg Hmsg].
    intros e. exists msg. unfold setTemplate. by rewrite Hmsg.
  - intros Hreq. rewrite Hreq in Hv.
    intros e. eexists. unfold setTemplate. rewrite Hv. cbn [bind].
    split; [reflexivity|].
    by rewrite template_initializeTemplateVariables.
  - intros e. apply renderTemplate_throw_independent.
  - reflexivity.
  - reflexivity.
  - reflexivity.
  - reflexivity.
Qed.

(** [setTemplate] rejects a template without [{{{imports}}}] and accepts
    the default one; a subclass whose template field has no placeholder is
    constructed all the same. *)
Lemma template_checked_when_set_witness :
  (exists msg, setTemplate "# {{{content}}}" baseEngine = Throw (ErrorObj msg))
  ∧ (exists e', setTemplate defaultTemplate baseEngine = Ok e'
                ∧ template e' = defaultTemplate)
  ∧ newWithTemplateField "no placeholder"
    = Ok (with_template "no placeholder" baseEngine).
Proof.
  split_and!.
  - destruct (template_checked_when_set "# {{{content}}}") as (Hbad & _).
    apply Hbad. reflexivity.
  - destruct (template_checked_when_set defaultTemplate) as (_ & Hgood & _).
    apply Hgood. reflexivity.
  - destruct (template_checked_when_set "no placeholder")
      as (_ & _ & _ & _ & Hnew & _).
    exact Hnew.
Defined.

Example setTemplate_rejects :
  setTemplate "# {{{content}}}" baseEngine
  = Throw (ErrorObj "Template must contain imports variable").
Proof. reflexivity. Qed.

(** *** The names [setTemplate] registers *)

(** What [initializeTemplateVariables] makes of a match: the opening braces
    go, the closing ones stay. *)
Lemma stripFirstBraces_matched (w : string) :
  Placeholder.stripFirstBraces (Placeholder.matched w) = w +:+ "}}}".
Proof. reflexivity. Qed.

(** Every match is a placeholder, braces included. *)
Lemma matchAll_matched skip s m :
  m ∈ Placeholder.matchAll skip s -> exists w, m = Placeholder.matched w.
Proof.
  revert skip. induction s as [|c s IH]; intros skip Hm; cbn in Hm.
  - by apply elem_of_nil in Hm.
  - destruct skip as [|k]; [|by apply (IH k)].
    destruct (Placeholder.matchAt (String c s)) as [w|]; [|by apply (IH 0)].
    apply elem_of_cons in Hm as [->|Hm]; [by exists w|].
    by apply (IH _ Hm).
Qed.

Lemma has_addVariable name name' r e :
  JsMap.has name (variableDataCollector (addVariable name' r e))
  = if decide (name = name') then true
    else JsMap.has name (variableDataCollector e).
Proof.
  assert (forall e', variableDataCollector
                       (match r with
                        | Some r' =>
                            with_resolvers
                              (JsMap.set name' r' (variableResolvers e')) e'
                        | None => e'
                        end) = variableDataCollector e') as Hres
    by (intros e'; by destruct r).
  unfold addVariable. rewrite Hres. unfold JsMap.has.
  destruct (JsMap.get name' (variableDataCollector e)) as [c|] eqn:Hget.
  - destruct (decide (name = name')) as [->|Hne]; [by rewrite Hget|done].
  - change (variableDataCollector (with_collector ?vd e)) with vd.
    rewrite get_set. by destruct (decide (name = name')).
Qed.

Lemma has_fold_addVariable (names : list string) name e :
  JsMap.has name
    (variableDataCollector
       (fold_left (fun e v => addVariable (Placeholder.stripFirstBraces v) None e)
          names e))
  = if decide (name ∈ Placeholder.stripFirstBraces <$> names) then true
    else JsMap.has name (variableDataCollector e).
Proof.
  revert e. induction names as [|v names IH]; intros e; cbn [fold_left fmap list_fmap].
  - rewrite decide_False; [done|]. by intros ?%elem_of_nil.
  - rewrite IH, has_addVariable.
    destruct (decide (name ∈ Placeholder.stripFirstBraces <$> names)) as [Hin|Hnin].
    + rewrite decide_True; [done|]. by apply list_elem_of_further.
    + destruct (decide (name = Placeholder.stripFirstBraces v)) as [->|Hne].
      * rewrite decide_True; [done|]. apply list_elem_of_here.
      * rewrite decide_False; [done|]. by intros [?|?]%elem_of_cons.
Qed.

(** The names a successful [setTemplate] leaves registered: those that were,
    and for each match of the template its text without the opening
    braces. *)
Lemma setTemplate_registered t e e' name :
  setTemplate t e = Ok e' ->
  JsMap.has name (variableDataCollector e')
  = if decide (name ∈ Placeholder.stripFirstBraces
                        <$> Placeholder.matchAll 0 t)
    then true else JsMap.has name (variableDataCollector e).
Proof.
  unfold setTemplate. destruct (validateTemplate t); cbn [bind]; [|done].
  intros [= <-]. unfold initializeTemplateVariables.
  by rewrite has_fold_addVariable.
Qed.

(** C2 (the code differs).  [setTemplate] registers, for each match of the
    template, the match's text with the opening braces removed and the
    closing ones left on.  On a new instance, the template with the
    placeholders [imports], [content] and [foo] is accepted and leaves no
    variable [foo]: the collector created for it is named [foo}}}]. *)
Theorem setTemplate_registers_braced_name :
  (forall t e e' w,
     setTemplate t e = Ok e' ->
     Placeholder.matched w ∈ Placeholder.matchAll 0 t ->
     JsMap.has (w +:+ "}}}") (variableDataCollector e') = true)
  ∧ exists e,
      setTemplate "{{{imports}}}{{{content}}}{{{foo}}}" baseEngine = Ok e
      ∧ Placeholder.matchAll 0 (template e)
        = ["{{{imports}}}"; "{{{content}}}"; "{{{foo}}}"]
      ∧ JsMap.has "foo" (variableDataCollector e) = false
      ∧ JsMap.get "foo}}}" (variableDataCollector e) = Some []
      ∧ JsMap.keys (variableDataCollector e)
        = ["imports"; "content"; "imports}}}"; "content}}}"; "foo}}}"].
Proof.
  split.
  - intros t e e' w Hset Hin.
    rewrite (setTemplate_registered t e e' _ Hset), decide_True; [done|].
    rewrite <- stripFirstBraces_matched. by apply list_elem_of_fmap_2.
  - eexists. split; [reflexivity|]. by vm_compute.
Qed.

(** ** Frontmatter values *)

Lemma toString_JStr_map (l : list string) :
  map (fun v => quoted (toString v)) (JStr <$> l) = quoted <$> l.
Proof. induction l as [|s l IH]; cbn; [done|]. by f_equal. Qed.

(** C10.  An array of strings is formatted with each element between double
    quotes as it is, with no escaping, while a string given directly has
    its double quotes escaped.  With q for the double quote: the one-element
    array holding aqb gives [qaqbq], the quote inside left bare, and aqb given
    directly gives qa\qbq. *)
Theorem formatYamlValue_escapes_strings_only :
  (forall l : list string,
     formatYamlValue (JArr (JStr <$> l))
     = "[" +:+ Str.join ", " (quoted <$> l) +:+ "]")
  ∧ (forall s, formatYamlValue (JStr s) = quoted (Str.escapeQuotes s))
  ∧ Str.includes (Str.of_char Str.dquote) quoteInside = true
  ∧ formatYamlValue (JArr [JStr quoteInside])
    = "[" +:+ Str.of_char Str.dquote +:+ "a" +:+ Str.of_char Str.dquote
      +:+ "b" +:+ Str.of_char Str.dquote +:+ "]"
  ∧ formatYamlValue (JStr quoteInside)
    = Str.of_char Str.dquote +:+ "a" +:+ Str.of_char Str.backslash
      +:+ Str.of_char Str.dquote +:+ "b" +:+ Str.of_char Str.dquote.
Proof.
  split_and!; try reflexivity.
  intros l. cbn [formatYamlValue]. by rewrite toString_JStr_map.
Qed.


(** * Further properties *)

(** ** Processing one block *)

Lemma get_addToCollector v c e name :
  JsMap.get name (variableDataCollector (addToCollector v c e))
  = if decide (name = v)
    then Some (default [] (JsMap.get v (variableDataCollector e)) ++ [c])
    else JsMap.get name (variableDataCollector e).
Proof.
  unfold addToCollector.
  change (variableDataCollector (with_collector ?vd e)) with vd.
  rewrite get_set. destruct (decide (name = v)) as [->|Hne].
  - f_equal. f_equal. unfold JsMap.has.
    destruct (JsMap.get v (variableDataCollector e)) eqn:Hget.
    + by rewrite Hget.
    + by rewrite get_set_eq.
  - destruct (JsMap.has v (variableDataCollector e)); [done|].
    rewrite get_set_ne; [done|]. by intros ->.
Qed.

Lemma get_addVariable_None v e name :
  JsMap.get name (variableDataCollector (addVariable v None e))
  = if decide (name = v)
    then Some (default [] (JsMap.get v (variableDataCollector e)))
    else JsMap.get name (variableDataCollector e).
Proof.
  unfold addVariable, JsMap.has.
  destruct (JsMap.get v (variableDataCollector e)) as [l|] eqn:Hget.
  - destruct (decide (name = v)) as [->|Hne]; [by rewrite Hget|done].
  - change (variableDataCollector (with_collector ?vd e)) with vd.
    rewrite get_set. by destruct (decide (name = v)).
Qed.

Lemma get_addImports imps e name :
  name ≠ "imports" ->
  JsMap.get name (variableDataCollector (addImports imps e))
  = JsMap.get name (variableDataCollector e).
Proof.
  intros Hne. unfold addImports.
  change (variableDataCollector (with_collector ?vd e)) with vd.
  rewrite get_set_ne; [done|]. by intros <-.
Qed.

(** The steps of [processBlock] after a successful [transform]. *)
Lemma processBlock_ok b md e T out vd :
  blockTransformers e !! type b = Some T ->
  transform T (blockContext b md e) = (Ok out, vd) ->
  processBlock b md e
  = (Ok out,
     let e2 := match imports T with
               | Some (i :: r) => addImports (i :: r) (with_collector vd e)
               | _ => with_collector vd e
               end in
     addToCollector (targetOf T) out
       (if JsMap.has (targetOf T) (variableDataCollector e2) then e2
        else addVariable (targetOf T) None e2)).
Proof.
  intros HT Htr. unfold processBlock. by rewrite HT, Htr.
Qed.

(** X1.  When the transformer of a block returns [out], [processBlock]
    returns [out], [out] is the last fragment of the target collector
    (created if it was missing; [content] when the transformer names none),
    every import the transformer declares is in the [imports] collector,
    and any collector other than the target and [imports] is as the
    transformer left it. *)
Theorem processBlock_collects_output (b : Block) (md : option ContextMetadata)
    (e : Engine) (T : BlockTransformer) (out : string) (vd : VariableCollector) :
  blockTransformers e !! type b = Some T ->
  transform T (blockContext b md e) = (Ok out, vd) ->
  (processBlock b md e).1 = Ok out
  ∧ (exists before,
       JsMap.get (targetOf T) (variableDataCollector (processBlock b md e).2)
       = Some (before ++ [out])
       ∧ (targetOf T ≠ "imports" ->
          before = default [] (JsMap.get (targetOf T) vd)))
  ∧ (forall i, i ∈ default [] (imports T) ->
       i ∈ importsOf (processBlock b md e).2)
  ∧ (forall name, name ≠ targetOf T -> name ≠ "imports" ->
       JsMap.get name (variableDataCollector (processBlock b md e).2)
       = JsMap.get name vd).
Proof.
  intros HT Htr. rewrite (processBlock_ok b md e T out vd HT Htr).
  cbn [fst snd].
  set (e1 := with_collector vd e).
  set (e2 := match imports T with
             | Some (i :: r) => addImports (i :: r) e1
             | _ => e1
             end).
  set (e3 := if JsMap.has (targetOf T) (variableDataCollector e2) then e2
             else addVariable (targetOf T) None e2).
  assert (forall name, name ≠ "imports" ->
            JsMap.get name (variableDataCollector e2) = JsMap.get name vd)
    as Hframe2.
  { intros name Hne. subst e2.
    destruct (imports T) as [[|i r]|]; try done. by rewrite get_addImports. }
  assert (forall name,
            default [] (JsMap.get name (variableDataCollector e3))
            = default [] (JsMap.get name (variableDataCollector e2))) as Hdef3.
  { intros name. subst e3.
    destruct (JsMap.has _ (variableDataCollector e2)); [done|].
    rewrite get_addVariable_None. by destruct (decide (name = targetOf T)) as [->|]. }
  assert (forall name, name ≠ targetOf T ->
            JsMap.get name (variableDataCollector e3)
            = JsMap.get name (variableDataCollector e2)) as Hframe3.
  { intros name Hne. subst e3.
    destruct (JsMap.has _ (variableDataCollector e2)); [done|].
    rewrite get_addVariable_None. by rewrite decide_False. }
  split_and!.
  - done.
  - eexists. split.
    + rewrite get_addToCollector, decide_True by done. reflexivity.
    + intros Hne. by rewrite Hdef3, Hframe2.
  - intros i Hi.
    assert (i ∈ importsOf e2) as Hi2.
    { subst e2. destruct (imports T) as [[|i0 r]|]; cbn in Hi;
        try by apply elem_of_nil in Hi.
      rewrite importsOf_addImports. apply fold_pushImport_elem. by right. }
    eapply elem_of_prefix; [|apply importsOf_addToCollector].
    unfold importsOf. by rewrite Hdef3.
  - intros name Hne Hni.
    rewrite get_addToCollector, decide_False by done.
    by rewrite Hframe3, Hframe2.
Qed.

Lemma processBlock_collects_output_witness :
  (processBlock imageBlock None sampleEngine).1 = Ok "<Image />"
  ∧ JsMap.get "content"
      (variableDataCollector (processBlock imageBlock None sampleEngine).2)
    = Some ["<Image />"]
  ∧ "import Image from 'image'"
      ∈ importsOf (processBlock imageBlock None sampleEngine).2.
Proof.
  destruct (processBlock_collects_output imageBlock None sampleEngine
              imageTransformer "<Image />"
              (variableDataCollector sampleEngine) eq_refl eq_refl)
    as (Hout & _ & Himports & _).
  split_and!.
  - exact Hout.
  - reflexivity.
  - apply Himports. apply list_elem_of_here.
Defined.

(** ** What [process] changes and what it returns *)

Lemma sameButCollectors_refl e : sameButCollectors e e.
Proof. by repeat split. Qed.

Lemma sameButCollectors_trans e1 e2 e3 :
  sameButCollectors e1 e2 -> sameButCollectors e2 e3 ->
  sameButCollectors e1 e3.
Proof.
  intros (H1 & H2 & H3 & H4 & H5) (K1 & K2 & K3 & K4 & K5).
  repeat split; congruence.
Qed.

Lemma sameButCollectors_processBlock b md e :
  sameButCollectors e (processBlock b md e).2.
Proof.
  unfold processBlock, addToCollector, addVariable, addImports.
  repeat case_match; by repeat split.
Qed.

Lemma sameButCollectors_processBlocks bs e :
  sameButCollectors e (processBlocks bs e).2.
Proof.
  revert e. induction bs as [|b bs IH]; intros e; cbn [processBlocks].
  - apply sameButCollectors_refl.
  - pose proof (sameButCollectors_processBlock b None e) as Hb.
    destruct (processBlock b None e) as [[out|x] e']; cbn [snd] in *; [|done].
    eapply sameButCollectors_trans; [exact Hb|apply IH].
Qed.

Lemma sameButCollectors_resetCollectors e :
  sameButCollectors e (resetCollectors e).
Proof. by repeat split. Qed.

(** X2.  [process] takes the page id, the page properties and the block
    tree of the context from its input, and changes neither the template,
    nor the resolvers, nor the two transformer registries, nor the next
    stage, whether it succeeds or fails. *)
Theorem process_changes_context_only (data : ChainData) (e : Engine) :
  template (process data e).2 = template e
  ∧ variableResolvers (process data e).2 = variableResolvers e
  ∧ blockTransformers (process data e).2 = blockTransformers e
  ∧ annotationTransformers (context (process data e).2)
    = annotationTransformers (context e)
  ∧ next (process data e).2 = next e
  ∧ pageId (context (process data e).2) = data_pageId data
  ∧ pageProperties (context (process data e).2)
    = properties (data_blockTree data)
  ∧ blockTree (context (process data e).2) = blocks (data_blockTree data).
Proof.
  rewrite process_state.
  destruct (sameButCollectors_processBlocks (blocks (data_blockTree data))
              (resetCollectors (updateContext data e)))
    as (Ht & Hr & Hb & Hn & Hc).
  rewrite Ht, Hr, Hb, Hn.
  apply (f_equal annotationTransformers) in Hc as Ha.
  apply (f_equal pageId) in Hc as Hp.
  apply (f_equal pageProperties) in Hc as Hpp.
  apply (f_equal blockTree) in Hc as Hbt.
  cbn in Ha, Hp, Hpp, Hbt. rewrite Ha, Hp, Hpp, Hbt.
  by repeat split.
Qed.



(** X4.  When a block's transformer throws, the blocks after it are not
    processed and [process] leaves the instance as that block left it: the
    collectors keep what the earlier blocks of this invocation put there. *)
Theorem failed_process_keeps_partial_collectors (e : Engine) (data : ChainData)
    (pre post : list Block) (b : Block) (e2 : Engine)
    (T : BlockTransformer) (x : Thrown) (vd : VariableCollector) :
  blocks (data_blockTree data) = pre ++ b :: post ->
  processBlocks pre (resetCollectors (updateContext data e)) = (Ok tt, e2) ->
  blockTransformers e2 !! type b = Some T ->
  transform T (blockContext b None e2) = (Throw x, vd) ->
  (process data e).2 = with_collector vd e2
  ∧ forall post',
      processBlocks (pre ++ b :: post') (resetCollectors (updateContext data e))
      = processBlocks (pre ++ [b]) (resetCollectors (updateContext data e)).
Proof.
  intros Hblocks Hpre HT Htr.
  pose proof (processBlock_throws _ _ _ _ _ _ HT Htr) as Hb.
  split.
  - rewrite process_state, Hblocks.
    by rewrite (processBlocks_stops _ _ _ _ _ _ _ Hpre Hb).
  - intros post'.
    by rewrite !(processBlocks_stops _ _ _ _ _ _ _ Hpre Hb).
Qed.

Lemma failed_process_keeps_partial_collectors_witness :
  JsMap.get "content"
    (variableDataCollector
       (process (onePage [imageBlock; paragraphHello] ∅)
          (createBlockTransformer "paragraph" throwingTransformer sampleEngine)).2)
  = Some ["<Image />"].
Proof.
  rewrite (proj1 (failed_process_keeps_partial_collectors
                    (createBlockTransformer "paragraph" throwingTransformer
                       sampleEngine)
                    (onePage [imageBlock; paragraphHello] ∅)
                    [imageBlock] [] paragraphHello _ throwingTransformer
                    (ErrorObj "boom") _ eq_refl eq_refl eq_refl eq_refl)).
  reflexivity.
Defined.

(** ** The content collector after an invocation *)

Lemma get_processBlock_ok b md e T out vd name :
  blockTransformers e !! type b = Some T ->
  transform T (blockContext b md e) = (Ok out, vd) ->
  name ≠ "imports" ->
  JsMap.get name (variableDataCollector (processBlock b md e).2)
  = if decide (name = targetOf T)
    then Some (default [] (JsMap.get name vd) ++ [out])
    else JsMap.get name vd.
Proof.
  intros HT Htr Hni. rewrite (processBlock_ok b md e T out vd HT Htr).
  cbn [snd].
  set (e2 := match imports T with
             | Some (i :: r) => addImports (i :: r) (with_collector vd e)
             | _ => with_collector vd e
             end).
  assert (forall n, n ≠ "imports" ->
            JsMap.get n (variableDataCollector e2) = JsMap.get n vd) as Hframe2.
  { intros n Hne. subst e2.
    destruct (imports T) as [[|i r]|]; try done. by rewrite get_addImports. }
  rewrite get_addToCollector.
  destruct (decide (name = targetOf T)) as [->|Hne].
  - f_equal. f_equal. rewrite <- (Hframe2 _ Hni).
    destruct (JsMap.has _ (variableDataCollector e2)); [done|].
    rewrite get_addVariable_None. by rewrite decide_True.
  - rewrite <- (Hframe2 _ Hni).
    destruct (JsMap.has _ (variableDataCollector e2)); [done|].
    rewrite get_addVariable_None. by rewrite decide_False.
Qed.

Lemma emits_same e e' b o :
  blockTransformers e' = blockTransformers e -> emits e b o -> emits e' b o.
Proof. unfold emits. by intros ->. Qed.

Lemma processBlock_emits e b o old :
  emits e b o ->
  JsMap.get "content" (variableDataCollector e) = Some old ->
  isThrow (processBlock b None e).1 = false
  ∧ JsMap.get "content" (variableDataCollector (processBlock b None e).2)
    = Some (old ++ option_list o).
Proof.
  unfold emits. intros Hemit Hold.
  destruct (blockTransformers e !! type b) as [T|] eqn:HT.
  - destruct Hemit as (out & -> & Htarget & Htr).
    specialize (Htr (blockContext b None e) eq_refl).
    change (variableData (blockContext b None e))
      with (variableDataCollector e) in Htr.
    split.
    + by rewrite (processBlock_ok b None e T out _ HT Htr).
    + rewrite (get_processBlock_ok b None e T out _ "content" HT Htr) by done.
      rewrite decide_True by done. by rewrite Hold.
  - subst o. unfold processBlock. rewrite HT. cbn.
    split; [done|]. by rewrite app_nil_r.
Qed.

Lemma processBlocks_emits bs os e old :
  Forall2 (emits e) bs os ->
  JsMap.get "content" (variableDataCollector e) = Some old ->
  (processBlocks bs e).1 = Ok tt
  ∧ JsMap.get "content" (variableDataCollector (processBlocks bs e).2)
    = Some (old ++ omap id os).
Proof.
  revert os e old.
  induction bs as [|b bs IH]; intros os e old Hall Hold;
    inversion Hall as [|? o ? os' Hb Hrest]; subst; cbn [processBlocks omap].
  - by rewrite app_nil_r.
  - destruct (processBlock_emits e b o old Hb Hold) as [Hok Hget].
    pose proof (sameButCollectors_processBlock b None e) as (_ & _ & Hbt & _).
    destruct (processBlock b None e) as [[out|x] e']; cbn [fst snd] in *;
      [|done].
    destruct (IH os' e' (old ++ option_list o)) as [Hok' Hget'].
    + eapply Forall2_impl; [exact Hrest|].
      intros b' o'. by apply emits_same.
    + exact Hget.
    + split; [exact Hok'|]. rewrite Hget'. f_equal.
      rewrite <- app_assoc. f_equal. by destruct o.
Qed.

(** X5.  On an instance with a [content] collector, when every block either
    has no transformer or has one that targets [content], returns its text
    and leaves the collectors alone, the [content] collector after
    [process] holds exactly the texts of this invocation's blocks, in block
    order: what earlier invocations collected is gone, and skipped blocks
    leave no trace. *)
Theorem content_holds_outputs_in_order (data : ChainData) (e : Engine)
    (os : list (option string)) :
  JsMap.has "content" (variableDataCollector e) = true ->
  Forall2 (emits e) (blocks (data_blockTree data)) os ->
  JsMap.get "content" (variableDataCollector (process data e).2)
  = Some (omap id os).
Proof.
  intros Hhas Hall. rewrite process_state.
  destruct (processBlocks_emits (blocks (data_blockTree data)) os
              (resetCollectors (updateContext data e)) []) as [_ Hget].
  - eapply Forall2_impl; [exact Hall|].
    intros b o. by apply emits_same.
  - rewrite get_resetCollectors, collector_updateContext.
    apply has_keys in Hhas. by rewrite decide_True.
  - exact Hget.
Qed.

Lemma sampleEngine_emits_image : emits sampleEngine imageBlock (Some "<Image />").
Proof. eexists. by split_and!. Qed.

Lemma sampleEngine_emits_nothing :
  emits sampleEngine {| type := "divider"; rich_text := []; children := [] |}
    None.
Proof. reflexivity. Qed.

Lemma content_holds_outputs_in_order_witness :
  JsMap.get "content"
    (variableDataCollector
       (process
          (onePage [imageBlock;
                    {| type := "divider"; rich_text := []; children := [] |};
                    imageBlock] ∅)
          afterFirstCall).2)
  = Some ["<Image />"; "<Image />"].
Proof.
  apply (content_holds_outputs_in_order
           (onePage [imageBlock;
                     {| type := "divider"; rich_text := []; children := [] |};
                     imageBlock] ∅)
           afterFirstCall [Some "<Image />"; None; Some "<Image />"]).
  - reflexivity.
  - constructor; [exact sampleEngine_emits_image|].
    constructor; [exact sampleEngine_emits_nothing|].
    constructor; [exact sampleEngine_emits_image|].
    constructor.
Defined.

(** ** Metadata set on the instance *)



(** ** Placeholders *)

Lemma append_cons (c : ascii) (a b : string) :
  String c a +:+ b = String c (a +:+ b).
Proof. reflexivity. Qed.

Lemma append_assoc (a b c : string) : (a +:+ b) +:+ c = a +:+ (b +:+ c).
Proof.
  induction a as [|x a IH]; [done|]. by rewrite !append_cons, IH.
Qed.

Lemma append_nil_r (a : string) : a +:+ "" = a.
Proof. induction a as [|x a IH]; [done|]. by rewrite append_cons, IH. Qed.

Lemma length_append (a b : string) :
  String.length (a +:+ b) = String.length a + String.length b.
Proof.
  induction a as [|x a IH]; [done|].
  rewrite append_cons. cbn [String.length]. by rewrite IH.
Qed.

Lemma spanWord_identifier w rest :
  wordChars w = true ->
  Str.spanWord (w +:+ "}}}" +:+ rest) = (w, "}}}" +:+ rest).
Proof.
  intros Hw. induction w as [|c w IH]; [reflexivity|].
  cbn in Hw. apply andb_true_iff in Hw as [Hc Hw].
  rewrite append_cons. cbn [Str.spanWord]. rewrite Hc. by rewrite (IH Hw).
Qed.

Lemma matchAt_matched w rest :
  identifier w = true ->
  Placeholder.matchAt (Placeholder.matched w +:+ rest) = Some w.
Proof.
  intros [Hne Hw]%andb_true_iff. unfold Placeholder.matchAt, Placeholder.matched.
  rewrite !append_assoc.
  rewrite strip_app, spanWord_identifier by done.
  rewrite Hne. unfold Str.startsWith. by rewrite strip_app.
Qed.

Lemma matchAt_noOpenBrace c s :
  c ≠ "{"%char -> Placeholder.matchAt (String c s) = None.
Proof.
  intros Hc. unfold Placeholder.matchAt. cbn [Str.strip].
  by rewrite decide_False by (by intros <-).
Qed.

Lemma replaceAll_skip f p s :
  Placeholder.replaceAll f (String.length p) (p +:+ s)
  = Placeholder.replaceAll f 0 s.
Proof.
  induction p as [|c p IH]; cbn [String.length String.append]; [by destruct s|].
  cbn [Placeholder.replaceAll]. exact IH.
Qed.

Lemma matchAll_skip p s :
  Placeholder.matchAll (String.length p) (p +:+ s) = Placeholder.matchAll 0 s.
Proof.
  induction p as [|c p IH]; cbn [String.length String.append]; [by destruct s|].
  cbn [Placeholder.matchAll]. exact IH.
Qed.

Lemma replaceAll_matched f w rest :
  identifier w = true ->
  Placeholder.replaceAll f 0 (Placeholder.matched w +:+ rest)
  = f w +:+ Placeholder.replaceAll f 0 rest.
Proof.
  intros Hw. pose proof (matchAt_matched w rest Hw) as Hm.
  unfold Placeholder.matched in *.
  change (("{{{" +:+ w +:+ "}}}") +:+ rest)
    with (String "{" (("{{" +:+ w +:+ "}}}") +:+ rest)) in *.
  cbn [Placeholder.replaceAll]. rewrite Hm. f_equal.
  rewrite <- (replaceAll_skip f ("{{" +:+ w +:+ "}}}") rest). f_equal.
  rewrite !length_append. cbn [String.length]. lia.
Qed.

Lemma matchAll_matched_here w rest :
  identifier w = true ->
  Placeholder.matchAll 0 (Placeholder.matched w +:+ rest)
  = Placeholder.matched w :: Placeholder.matchAll 0 rest.
Proof.
  intros Hw. pose proof (matchAt_matched w rest Hw) as Hm.
  unfold Placeholder.matched in *.
  change (("{{{" +:+ w +:+ "}}}") +:+ rest)
    with (String "{" (("{{" +:+ w +:+ "}}}") +:+ rest)) in *.
  cbn [Placeholder.matchAll]. rewrite Hm. f_equal.
  rewrite <- (matchAll_skip ("{{" +:+ w +:+ "}}}") rest). f_equal.
  rewrite !length_append. cbn [String.length]. lia.
Qed.

Lemma replaceAll_noOpenBrace f pre s :
  noOpenBrace pre = true ->
  Placeholder.replaceAll f 0 (pre +:+ s)
  = pre +:+ Placeholder.replaceAll f 0 s.
Proof.
  intros Hpre. induction pre as [|c pre IH]; [done|].
  cbn in Hpre. apply andb_true_iff in Hpre as [Hc Hpre].
  apply negb_true_iff, bool_decide_eq_false in Hc.
  rewrite append_cons. cbn [Placeholder.replaceAll].
  rewrite (matchAt_noOpenBrace c _ Hc). by rewrite (IH Hpre).
Qed.

Lemma matchAll_noOpenBrace pre s :
  noOpenBrace pre = true ->
  Placeholder.matchAll 0 (pre +:+ s) = Placeholder.matchAll 0 s.
Proof.
  intros Hpre. induction pre as [|c pre IH]; [done|].
  cbn in Hpre. apply andb_true_iff in Hpre as [Hc Hpre].
  apply negb_true_iff, bool_decide_eq_false in Hc.
  rewrite append_cons. cbn [Placeholder.matchAll].
  rewrite (matchAt_noOpenBrace c _ Hc). by rewrite (IH Hpre).
Qed.

(** X7.  In a template, text without an opening brace is copied as it is
    and a placeholder [{{{w}}}], [w] a non-empty run of word characters, is
    replaced by the value for [w], the scan going on right after it; the
    scan for the template's variables finds the same placeholders.  A text
    with no opening brace at all renders as itself and names no variable. *)
Theorem placeholders_replaced_in_place (f : string -> string)
    (pre w post : string) :
  noOpenBrace pre = true -> identifier w = true ->
  Placeholder.replaceAll f 0 (pre +:+ Placeholder.matched w +:+ post)
  = pre +:+ f w +:+ Placeholder.replaceAll f 0 post
  ∧ Placeholder.matchAll 0 (pre +:+ Placeholder.matched w +:+ post)
    = Placeholder.matched w :: Placeholder.matchAll 0 post
  ∧ Placeholder.replaceAll f 0 pre = pre
  ∧ Placeholder.matchAll 0 pre = [].
Proof.
  intros Hpre Hw. split_and!.
  - by rewrite replaceAll_noOpenBrace, replaceAll_matched.
  - by rewrite matchAll_noOpenBrace, matchAll_matched_here.
  - pose proof (replaceAll_noOpenBrace f pre "" Hpre) as H.
    cbn [Placeholder.replaceAll] in H. by rewrite !append_nil_r in H.
  - pose proof (matchAll_noOpenBrace pre "" Hpre) as H.
    cbn [Placeholder.matchAll] in H. by rewrite append_nil_r in H.
Qed.

Lemma placeholders_replaced_in_place_witness :
  Placeholder.replaceAll (fun name => "<" +:+ name +:+ ">") 0
    ("# " +:+ Placeholder.matched "title" +:+ " by {{{author}}}")
  = "# <title> by <author>".
Proof.
  rewrite (proj1 (placeholders_replaced_in_place
                    (fun name => "<" +:+ name +:+ ">") "# " "title"
                    " by {{{author}}}" eq_refl eq_refl)).
  reflexivity.
Defined.

(** ** Rendering *)

Lemma mapRes_ok {A B} (f : A -> Res B) (g : A -> B) (l : list A) :
  (forall a, a ∈ l -> f a = Ok (g a)) -> mapRes f l = Ok (map g l).
Proof.
  induction l as [|a l IH]; intros Hall; cbn [mapRes map]; [done|].
  rewrite (Hall a) by apply list_elem_of_here. cbn [bind].
  rewrite IH; [done|]. intros a' Ha'. by apply Hall, list_elem_of_further.
Qed.

Lemma get_map_keys {V W} (h : string -> W) (l : list (string * V)) name :
  JsMap.get name (map (fun entry => (entry.1, h entry.1)) l)
  = if JsMap.has name l then Some (h name) else None.
Proof.
  unfold JsMap.has. induction l as [|[k x] l IH]; cbn; [done|].
  destruct (decide (name = k)) as [->|Hne]; [done|]. exact IH.
Qed.

Lemma replaceAll_ext f g k s :
  (forall n, f n = g n) ->
  Placeholder.replaceAll f k s = Placeholder.replaceAll g k s.
Proof.
  intros Hfg. revert k. induction s as [|c s IH]; intros k; [done|].
  cbn [Placeholder.replaceAll]. destruct k as [|k]; [|apply IH].
  destruct (Placeholder.matchAt (String c s)); by rewrite ?Hfg, IH.
Qed.

Lemma renderTemplate_resolved e (v : string -> string) :
  (forall name, name ∈ JsMap.keys (variableDataCollector e) ->
     resolverOf e name name (context e) = Ok (v name)) ->
  renderTemplate e
  = Ok (Placeholder.replaceAll (renderedValue e v) 0 (template e)).
Proof.
  intros Hres. unfold renderTemplate.
  rewrite (mapRes_ok _ (fun entry : string * list string => (entry.1, v entry.1))).
  - cbn [bind]. f_equal. apply replaceAll_ext. intros name.
    unfold plainObjectGet, renderedValue.
    destruct (decide (name = "__proto__")) as [->|Hne]; [done|].
    rewrite (get_map_keys v). by destruct (JsMap.has name _).
  - intros [name fragments] Hin. cbn [fst].
    fold (resolverOf e name). rewrite Hres; [done|].
    unfold JsMap.keys. apply (list_elem_of_fmap_2 fst) in Hin. exact Hin.
Qed.

Lemma replaceAll_defaultTemplate f :
  Placeholder.replaceAll f 0 defaultTemplate
  = f "imports" +:+ Str.of_char Str.newline +:+ f "content".
Proof.
  change defaultTemplate
    with (Placeholder.matched "imports"
          +:+ (Str.of_char Str.newline +:+ (Placeholder.matched "content" +:+ ""))).
  rewrite replaceAll_matched by done.
  rewrite (replaceAll_noOpenBrace f (Str.of_char Str.newline)) by done.
  rewrite replaceAll_matched by done.
  cbn [Placeholder.replaceAll]. by rewrite append_nil_r.
Qed.

(** X8.  [renderTemplate] replaces each placeholder whose name has a
    collector by what the variable's resolver returns, the registered one
    or else the default one, which joins the collector's fragments by
    newlines.  A placeholder whose name has no collector becomes the empty
    string, unless the name is that of a member every plain object inherits
    ([constructor], [toString], ...): then it becomes that member's text,
    and [__proto__] does so even with a collector.  The default template
    renders as the imports, a newline, and the content. *)
Theorem renderTemplate_substitutes (e : Engine) :
  (forall v : string -> string,
     (forall name, name ∈ JsMap.keys (variableDataCollector e) ->
        resolverOf e name name (context e) = Ok (v name)) ->
     renderTemplate e
     = Ok (Placeholder.replaceAll (renderedValue e v) 0 (template e)))
  ∧ ((forall name, name ∈ JsMap.keys (variableDataCollector e) ->
        resolverOf e name = defaultResolver) ->
     renderTemplate e
     = Ok (Placeholder.replaceAll
             (renderedValue e
                (fun name =>
                   Str.join (Str.of_char Str.newline)
                     (default [] (JsMap.get name (variableDataCollector e)))))
             0 (template e))
     ∧ (template e = defaultTemplate ->
        renderTemplate e
        = Ok (Str.join (Str.of_char Str.newline) (importsOf e)
              +:+ Str.of_char Str.newline
              +:+ Str.join (Str.of_char Str.newline)
                    (default []
                       (JsMap.get "content" (variableDataCollector e))))))
  ∧ (forall v name,
       name ≠ "__proto__" -> inheritedText name = None ->
       renderedValue e v name
       = if JsMap.has name (variableDataCollector e) then v name else "")
  ∧ renderTemplate (with_template "{{{toString}}}" baseEngine)
    = Ok "function toString() { [native code] }".
Proof.
  split; [apply renderTemplate_resolved|].
  split; [|split; [|reflexivity]].
  - intros Hdefault.
    assert (renderTemplate e
            = Ok (Placeholder.replaceAll
                    (renderedValue e
                       (fun name =>
                          Str.join (Str.of_char Str.newline)
                            (default []
                               (JsMap.get name (variableDataCollector e)))))
                    0 (template e))) as Hrender.
    { apply renderTemplate_resolved.
      intros name Hin. by rewrite (Hdefault name Hin). }
    split; [exact Hrender|].
    intros Htemplate. rewrite Hrender, Htemplate.
    rewrite replaceAll_defaultTemplate. unfold renderedValue, importsOf, JsMap.has.
    rewrite !decide_False by done.
    do 2 f_equal.
    + by destruct (JsMap.get "imports" (variableDataCollector e)).
    + f_equal. by destruct (JsMap.get "content" (variableDataCollector e)).
  - intros v name Hne Hnone. unfold renderedValue.
    rewrite decide_False by done. by rewrite Hnone.
Qed.

Lemma baseEngine_default_resolvers e :
  variableResolvers e = variableResolvers baseEngine ->
  forall name, resolverOf e name = defaultResolver.
Proof.
  intros Hr name. unfold resolverOf. rewrite Hr.
  change (variableResolvers baseEngine)
    with [("imports", defaultResolver); ("content", defaultResolver)].
  cbn [JsMap.get]. repeat case_decide; reflexivity.
Qed.

Lemma renderTemplate_substitutes_witness :
  renderTemplate afterFirstCall
  = Ok ("import Image from 'image'" +:+ Str.of_char Str.newline
        +:+ "**Hello**" +:+ Str.of_char Str.newline +:+ "<Image />")
  ∧ renderTemplate (with_template "<{{{title}}}|{{{valueOf}}}>" afterFirstCall)
    = Ok "<|function valueOf() { [native code] }>".
Proof.
  destruct (renderTemplate_substitutes afterFirstCall)
    as (_ & Hdefault & _).
  destruct (renderTemplate_substitutes
              (with_template "<{{{title}}}|{{{valueOf}}}>" afterFirstCall))
    as (_ & Hinherited & _).
  split.
  - destruct Hdefault as [_ Hrender].
    + intros name _. by apply baseEngine_default_resolvers.
    + by rewrite Hrender.
  - destruct Hinherited as [Hrender _].
    + intros name _. by apply baseEngine_default_resolvers.
    + rewrite Hrender. vm_compute. reflexivity.
Defined.

(** ** Registering variables *)

Lemma collector_addVariable name r e :
  variableDataCollector (addVariable name r e)
  = variableDataCollector (addVariable name None e).
Proof. unfold addVariable. by destruct r. Qed.

Lemma resolvers_addVariable name r e :
  variableResolvers (addVariable name r e)
  = match r with
    | Some f => JsMap.set name f (variableResolvers e)
    | None => variableResolvers e
    end.
Proof.
  unfold addVariable.
  destruct r, (JsMap.has name (variableDataCollector e)); reflexivity.
Qed.

Lemma sameButCollectors_addVariable_None name e :
  sameButCollectors e (addVariable name None e).
Proof.
  unfold addVariable.
  destruct (JsMap.has name (variableDataCollector e)); by repeat split.
Qed.

(** X9.  [addVariable] never discards what is collected: a collector that
    exists keeps its fragments, a new one starts empty, and no other name
    is touched.  A resolver that is given replaces the one registered for
    the name, none given leaves the resolvers alone; and registering the
    same variable twice is the same as registering it once. *)
Theorem addVariable_keeps_fragments (name : string)
    (r : option VariableResolver) (e : Engine) :
  (forall name',
     JsMap.get name' (variableDataCollector (addVariable name r e))
     = if decide (name' = name)
       then Some (default [] (JsMap.get name (variableDataCollector e)))
       else JsMap.get name' (variableDataCollector e))
  ∧ (forall name',
       JsMap.get name' (variableResolvers (addVariable name r e))
       = match r with
         | Some f => if decide (name' = name) then Some f
                     else JsMap.get name' (variableResolvers e)
         | None => JsMap.get name' (variableResolvers e)
         end)
  ∧ addVariable name r (addVariable name r e) = addVariable name r e.
Proof.
  split_and!.
  - intros name'. rewrite collector_addVariable. apply get_addVariable_None.
  - intros name'. rewrite resolvers_addVariable.
    destruct r as [f|]; [apply get_set|done].
  - unfold addVariable at 1.
    assert (JsMap.has name (variableDataCollector (addVariable name r e)) = true)
      as ->.
    { rewrite has_addVariable. by rewrite decide_True. }
    destruct r as [f|]; [|done].
    rewrite resolvers_addVariable, set_set.
    unfold addVariable.
    by destruct (JsMap.has name (variableDataCollector e)).
Qed.

Lemma addVariable_keeps_fragments_witness :
  JsMap.get "content"
    (variableDataCollector (addVariable "content" None afterFirstCall))
  = Some ["**Hello**"; "<Image />"].
Proof.
  rewrite (proj1 (addVariable_keeps_fragments "content" None afterFirstCall)).
  reflexivity.
Defined.

(** ** Changing the template *)

Lemma get_fold_addVariable (names : list string) name e :
  JsMap.get name
    (variableDataCollector
       (fold_left (fun e v => addVariable (Placeholder.stripFirstBraces v) None e)
          names e))
  = match JsMap.get name (variableDataCollector e) with
    | Some fragments => Some fragments
    | None =>
        if decide (name ∈ Placeholder.stripFirstBraces <$> names)
        then Some [] else None
    end.
Proof.
  revert e. induction names as [|v names IH]; intros e;
    cbn [fold_left fmap list_fmap].
  - destruct (JsMap.get name _); [done|].
    rewrite decide_False; [done|]. by intros ?%elem_of_nil.
  - rewrite IH, get_addVariable_None.
    destruct (decide (name = Placeholder.stripFirstBraces v)) as [->|Hne].
    + destruct (JsMap.get _ (variableDataCollector e)); cbn [default]; [done|].
      rewrite decide_True; [done|]. apply list_elem_of_here.
    + destruct (JsMap.get name (variableDataCollector e)); [done|].
      destruct (decide (name ∈ Placeholder.stripFirstBraces <$> names)).
      * rewrite decide_True; [done|]. by apply list_elem_of_further.
      * rewrite decide_False; [done|]. by intros [?|?]%elem_of_cons.
Qed.

Lemma sameButCollectors_fold_addVariable (names : list string) e :
  sameButCollectors e
    (fold_left (fun e v => addVariable (Placeholder.stripFirstBraces v) None e)
       names e).
Proof.
  revert e. induction names as [|v names IH]; intros e; cbn [fold_left].
  - apply sameButCollectors_refl.
  - eapply sameButCollectors_trans;
      [apply sameButCollectors_addVariable_None|apply IH].
Qed.

(** X10.  A [setTemplate] that succeeds makes the given text the template
    and loses nothing: every collector keeps its fragments, the resolvers
    and the transformer registries are the same, and a collector it adds is
    empty. *)
Theorem setTemplate_keeps_collected (t : string) (e e' : Engine) :
  setTemplate t e = Ok e' ->
  template e' = t
  ∧ variableResolvers e' = variableResolvers e
  ∧ blockTransformers e' = blockTransformers e
  ∧ annotationTransformers (context e') = annotationTransformers (context e)
  ∧ metadataOf e' = metadataOf e
  ∧ (forall name fragments,
       JsMap.get name (variableDataCollector e) = Some fragments ->
       JsMap.get name (variableDataCollector e') = Some fragments)
  ∧ (forall name,
       JsMap.get name (variableDataCollector e) = None ->
       JsMap.get name (variableDataCollector e') = None
       ∨ JsMap.get name (variableDataCollector e') = Some []).
Proof.
  unfold setTemplate. destruct (validateTemplate t); cbn [bind]; [|done].
  intros [= <-]. unfold initializeTemplateVariables.
  change (template (with_template t e)) with t.
  destruct (sameButCollectors_fold_addVariable (Placeholder.matchAll 0 t)
              (with_template t e)) as (Ht & Hr & Hb & _ & Hc).
  apply (f_equal annotationTransformers) in Hc as Ha.
  apply (f_equal metadata) in Hc as Hm.
  split_and!; try done.
  - intros name fragments Hget. rewrite get_fold_addVariable.
    change (variableDataCollector (with_template t e))
      with (variableDataCollector e). by rewrite Hget.
  - intros name Hget. rewrite get_fold_addVariable.
    change (variableDataCollector (with_template t e))
      with (variableDataCollector e). rewrite Hget.
    case_decide; [by right|by left].
Qed.

Lemma setTemplate_keeps_collected_witness :
  exists e',
    setTemplate ("# Page" +:+ defaultTemplate) afterFirstCall = Ok e'
    ∧ JsMap.get "content" (variableDataCollector e')
      = Some ["**Hello**"; "<Image />"].
Proof.
  eexists. split; [reflexivity|].
  eapply (setTemplate_keeps_collected ("# Page" +:+ defaultTemplate)
            afterFirstCall); reflexivity.
Defined.

(** ** Rich text without active flags, and the MDX transformers *)

Lemma join_empty_sep (l : list string) (x : string) :
  Str.join "" (x :: l) = x +:+ Str.join "" l.
Proof.
  destruct l as [|y l]; cbn [Str.join]; [by rewrite append_nil_r|done].
Qed.

Lemma processRichTextItem_plain reg md item :
  Forall (inactive reg) (annotations item) ->
  hasHref (href item) = false ->
  processRichTextItem reg md item = Ok (plain_text item).
Proof.
  intros Hflags Hhref. unfold processRichTextItem.
  rewrite applyAnnotations_inactive by done. cbn [bind]. by rewrite Hhref.
Qed.

(** X11.  Spans that carry no link and whose flags are all off or without a
    registered transformer come out as their plain texts, concatenated in
    order with nothing between them; in particular an instance with no
    annotation transformer at all passes unlinked text through, whatever the
    flags. *)
Theorem processRichText_plain_text (c : RendererContext)
    (richText : list RichTextItemResponse) (md : option ContextMetadata) :
  Forall (fun item =>
            Forall (inactive (annotationTransformers c)) (annotations item)
            ∧ hasHref (href item) = false) richText ->
  processRichText c richText md
  = Ok (fold_right (fun item acc => plain_text item +:+ acc) "" richText).
Proof.
  intros Hall. unfold processRichText.
  rewrite (mapRes_ok _ plain_text).
  - cbn [bind]. f_equal. clear Hall.
    induction richText as [|item rest IH]; [done|].
    cbn [map fold_right]. by rewrite join_empty_sep, IH.
  - intros item Hin. rewrite Forall_forall in Hall.
    destruct (Hall item Hin) as [Hflags Hhref].
    by apply processRichTextItem_plain.
Qed.

Lemma processRichText_plain_text_witness :
  processRichText (context baseEngine)
    (rich_text boldHello ++ rich_text paragraphHello) None
  = Ok "HelloHello".
Proof.
  apply (processRichText_plain_text (context baseEngine)
           (rich_text boldHello ++ rich_text paragraphHello) None).
  repeat first [by right | done | split | constructor].
Defined.

Lemma includes_prefix s q : Str.includes s (s +:+ q) = true.
Proof.
  assert (Str.startsWith s (s +:+ q) = true) as Hstart
    by (unfold Str.startsWith; by rewrite strip_app).
  destruct (s +:+ q); cbn [Str.includes]; by rewrite Hstart.
Qed.

Lemma includes_wrapped p s q : Str.includes s (p +:+ s +:+ q) = true.
Proof. apply includes_app_r, includes_prefix. Qed.

(** X12.  Each of the seven MDX annotation transformers returns a text, for
    every input, and the text it was given is part of what it returns; the
    link transformer returns the text unchanged when it is given no link or
    an empty url. *)
Theorem mdx_transformers_keep_text (name : string) (t : AnnotationTransformer)
    (a : AnnotationInput) :
  (name, t) ∈ Mdx.annotationTransformers ->
  (exists out, ann_transform t a = Ok out ∧ Str.includes (text a) out = true)
  ∧ (link a = None \/ (exists l, link a = Some l ∧ url l = "") ->
     ann_transform Mdx.linkT a = Ok (text a)).
Proof.
  intros Hin. split.
  - unfold Mdx.annotationTransformers in Hin.
    repeat (apply elem_of_cons in Hin as [[= -> ->]|Hin]);
      [..|by apply elem_of_nil in Hin];
      cbn [ann_transform Mdx.bold Mdx.italic Mdx.strikethrough Mdx.code
             Mdx.underline Mdx.linkT Mdx.equation].
    + destruct (Mdx.html (in_metadata a)); cbn [negb]; eexists;
        (split; [done|apply includes_wrapped]).
    + destruct (Mdx.html (in_metadata a)); cbn [negb]; eexists;
        (split; [done|apply includes_wrapped]).
    + destruct (Mdx.html (in_metadata a)); cbn [negb]; eexists;
        (split; [done|apply includes_wrapped]).
    + destruct (Mdx.html (in_metadata a)); eexists;
        (split; [done|apply includes_wrapped]).
    + eexists; (split; [done|apply includes_wrapped]).
    + destruct (link a) as [l|]; [|eexists; split; [done|apply includes_refl]].
      destruct (Str.nonempty (url l)); cbn [negb];
        [|eexists; split; [done|apply includes_refl]].
      destruct (Mdx.html (in_metadata a)); cbn [negb]; eexists; (split; [done|]).
      * do 2 apply includes_app_r. apply includes_wrapped.
      * apply includes_wrapped.
    + destruct (Mdx.html (in_metadata a)); cbn [negb]; eexists;
        (split; [done|apply includes_wrapped]).
  - intros [Hnone|(l & Hl & Hurl)]; cbn [Mdx.linkT ann_transform].
    + by rewrite Hnone.
    + by rewrite Hl, Hurl.
Qed.

Lemma mdx_transformers_keep_text_witness :
  exists out,
    ann_transform Mdx.code (flagInput helloLinked None "x") = Ok out
    ∧ Str.includes "x" out = true.
Proof.
  apply (mdx_transformers_keep_text "code" Mdx.code
           (flagInput helloLinked None "x")).
  unfold Mdx.annotationTransformers. do 3 apply list_elem_of_further.
  apply list_elem_of_here.
Defined.

(** ** Bulk registration *)

Lemma annotationTransformers_create name t e :
  annotationTransformers (context (createAnnotationTransformer name t e))
  = <[name := t]> (annotationTransformers (context e)).
Proof. reflexivity. Qed.

Lemma lookup_createAnnotationTransformers table e name :
  name ∉ table.*1 ->
  annotationTransformers (context (createAnnotationTransformers table e)) !! name
  = annotationTransformers (context e) !! name.
Proof.
  revert e. induction table as [|[k t] table IH]; intros e Hnin; [done|].
  cbn in Hnin. apply not_elem_of_cons in Hnin as [Hne Hnin].
  unfold createAnnotationTransformers in *. cbn [fold_left fst snd].
  rewrite IH by done. rewrite annotationTransformers_create.
  by rewrite lookup_insert_ne.
Qed.

Lemma lookup_createBlockTransformers table e ty :
  ty ∉ table.*1 ->
  blockTransformers (createBlockTransformers table e) !! ty
  = blockTransformers e !! ty.
Proof.
  revert e. induction table as [|[k t] table IH]; intros e Hnin; [done|].
  cbn in Hnin. apply not_elem_of_cons in Hnin as [Hne Hnin].
  unfold createBlockTransformers in *. cbn [fold_left fst snd].
  rewrite IH by done. destruct t as [t|]; [|done].
  cbn [createBlockTransformer blockTransformers]. by rewrite lookup_insert_ne.
Qed.

(** X13.  Registering a table of transformers (a record, so no name comes
    twice) registers each entry under its name and leaves every other name
    as it was.  In the block form an entry whose value is [undefined] is
    passed over: a transformer already registered under that type stays. *)
Theorem bulk_registration (e : Engine)
    (annotations : list (string * AnnotationTransformer))
    (blockTable : list (string * option BlockTransformer)) :
  NoDup annotations.*1 -> NoDup blockTable.*1 ->
  (forall name t, (name, t) ∈ annotations ->
     annotationTransformers
       (context (createAnnotationTransformers annotations e)) !! name = Some t)
  ∧ (forall name, name ∉ annotations.*1 ->
       annotationTransformers
         (context (createAnnotationTransformers annotations e)) !! name
       = annotationTransformers (context e) !! name)
  ∧ (forall ty t, (ty, Some t) ∈ blockTable ->
       blockTransformers (createBlockTransformers blockTable e) !! ty = Some t)
  ∧ (forall ty, (ty, None) ∈ blockTable \/ ty ∉ blockTable.*1 ->
       blockTransformers (createBlockTransformers blockTable e) !! ty
       = blockTransformers e !! ty).
Proof.
  intros Hnd Hndb. split_and!.
  - revert e Hnd. induction annotations as [|[k t'] table IH];
      intros e Hnd name t Hin; [by apply elem_of_nil in Hin|].
    cbn in Hnd. apply NoDup_cons in Hnd as [Hk Hnd].
    unfold createAnnotationTransformers. cbn [fold_left fst snd].
    apply elem_of_cons in Hin as [[= -> ->]|Hin].
    + fold (createAnnotationTransformers table
              (createAnnotationTransformer k t' e)).
      rewrite lookup_createAnnotationTransformers by done.
      rewrite annotationTransformers_create. apply lookup_insert_eq.
    + by apply IH.
  - intros name Hnin. by apply lookup_createAnnotationTransformers.
  - clear Hnd. revert e Hndb. induction blockTable as [|[k t'] table IH];
      intros e Hnd ty t Hin; [by apply elem_of_nil in Hin|].
    cbn in Hnd. apply NoDup_cons in Hnd as [Hk Hnd].
    unfold createBlockTransformers. cbn [fold_left fst snd].
    apply elem_of_cons in Hin as [[= -> <-]|Hin].
    + fold (createBlockTransformers table (createBlockTransformer k t e)).
      rewrite lookup_createBlockTransformers by done.
      cbn [createBlockTransformer blockTransformers]. apply lookup_insert_eq.
    + by apply IH.
  - clear Hnd. revert e Hndb. induction blockTable as [|[k t'] table IH];
      intros e Hnd ty Hty; [done|].
    cbn in Hnd. apply NoDup_cons in Hnd as [Hk Hnd].
    destruct Hty as [Hin|Hnin];
      [|by apply lookup_createBlockTransformers].
    unfold createBlockTransformers. cbn [fold_left fst snd].
    apply elem_of_cons in Hin as [[= -> <-]|Hin].
    + fold (createBlockTransformers table e).
      by rewrite lookup_createBlockTransformers.
    + fold (createBlockTransformers table
              (match t' with
               | Some transformer => createBlockTransformer k transformer e
               | None => e
               end)).
      rewrite IH by (done || by left).
      destruct t' as [t'|]; [|done].
      cbn [createBlockTransformer blockTransformers].
      rewrite lookup_insert_ne; [done|].
      intros ->. apply Hk. by apply (list_elem_of_fmap_2 fst) in Hin.
Qed.

Lemma bulk_registration_witness :
  annotationTransformers
    (context (createAnnotationTransformers Mdx.annotationTransformers baseEngine))
    !! "code" = Some Mdx.code
  ∧ blockTransformers
      (createBlockTransformers [("image", None); ("quote", Some throwingTransformer)]
         sampleEngine) !! "image" = Some imageTransformer.
Proof.
  destruct (bulk_registration baseEngine Mdx.annotationTransformers [])
    as (Hann & _); [compute_done|apply NoDup_nil_2|].
  destruct (bulk_registration sampleEngine []
              [("image", None); ("quote", Some throwingTransformer)])
    as (_ & _ & _ & Hkeep); [apply NoDup_nil_2|compute_done|].
  split.
  - apply Hann. unfold Mdx.annotationTransformers.
    do 3 apply list_elem_of_further. apply list_elem_of_here.
  - rewrite Hkeep; [reflexivity|]. left. apply list_elem_of_here.
Defined.

(** ** Property values and frontmatter strings *)

Lemma extractProperty_noUndefined :
  forall p, noUndefined (extractProperty p) = true.
Proof.
  fix IH 1. intros p. destruct p as
    [| | | names | [d|] | | | | | | | | | | [ | | [b|] | ] | | | array
     | files | people | ids | ]; try reflexivity.
  - cbn. induction names as [|n names IHn]; [done|]. exact IHn.
  - cbn. destruct (date_end d) as [e|]; [|done]. by destruct (Str.nonempty e).
  - cbn [extractProperty noUndefined].
    induction array as [|x xs IHxs]; [done|].
    cbn [map forallb]. by rewrite (IH x), IHxs.
  - cbn. induction files as [|[u|u] files IHf]; [done|exact IHf|exact IHf].
  - cbn. induction people as [|u people IHp]; [done|]. exact IHp.
  - cbn. induction ids as [|n ids IHn]; [done|]. exact IHn.
Qed.

(** X14.  [extractPropertyValue] never returns [undefined], and no
    [undefined] is inside an array it returns, however rollup arrays are
    nested.  It returns [null] in three cases only: the property is
    missing, its type is one the function has no case for, or it is a
    formula whose boolean result is [null]. *)
Theorem extractPropertyValue_defined (property : option NotionPropertyValue) :
  noUndefined (extractPropertyValue property) = true
  ∧ (extractPropertyValue property = JNull
     <-> property = None
         \/ (exists tag, property = Some (OtherProperty tag))
         \/ property = Some (FormulaProperty (FormulaBoolean None))).
Proof.
  split.
  - destruct property as [p|]; [apply extractProperty_noUndefined|done].
  - destruct property as [p|]; [|by split; [left|]].
    cbn [extractPropertyValue]. split.
    + destruct p as
        [| | | | [d|] | | | | | | | | | | [ | | [b|] | ] | | | | | | | tag];
        cbn; try discriminate.
      * destruct (date_end d) as [e|]; [|discriminate].
        destruct (Str.nonempty e); discriminate.
      * intros _. by right; right.
      * intros _. right; left. by exists tag.
    + intros [Hnone|[(tag & Htag)|Hformula]]; [done| |];
        simplify_eq; reflexivity.
Qed.

(** ** Escaping in frontmatter strings *)

Lemma quotesEscaped_escapeQuotes b s :
  quotesEscaped b (Str.escapeQuotes s) = true.
Proof.
  revert b. induction s as [|c s IH]; intros b; [done|].
  cbn [Str.escapeQuotes]. destruct (decide (c = Str.dquote)) as [->|Hc].
  - cbn [quotesEscaped]. rewrite decide_False by done.
    rewrite decide_True by done. cbn. apply IH.
  - cbn [quotesEscaped]. rewrite decide_False by done. apply IH.
Qed.

Lemma escapeQuotes_noQuote s : noQuote s = true -> Str.escapeQuotes s = s.
Proof.
  induction s as [|c s IH]; [done|]. cbn [noQuote Str.escapeQuotes].
  intros [Hc Hs]%andb_true_iff.
  apply negb_true_iff, bool_decide_eq_false in Hc.
  rewrite decide_False by done. by rewrite IH.
Qed.

(** X15.  For a string, [formatYamlValue] gives the string between two
    double quotes with a backslash put before each double quote in it: in
    the body every double quote stands right after a backslash, and a string
    with no double quote in it is the body as it is.  Nothing else is
    escaped, a backslash in particular is copied alone. *)
Theorem formatYamlValue_string_body (s : string) :
  formatYamlValue (JStr s) = quoted (Str.escapeQuotes s)
  ∧ quotesEscaped false (Str.escapeQuotes s) = true
  ∧ (noQuote s = true -> formatYamlValue (JStr s) = quoted s)
  ∧ Str.escapeQuotes (Str.of_char Str.backslash) = Str.of_char Str.backslash.
Proof.
  split_and!.
  - reflexivity.
  - apply quotesEscaped_escapeQuotes.
  - intros Hs. cbn [formatYamlValue]. by rewrite escapeQuotes_noQuote.
  - reflexivity.
Qed.

Lemma formatYamlValue_string_body_witness :
  formatYamlValue (JStr "plain title") = quoted "plain title".
Proof.
  apply (formatYamlValue_string_body "plain title"). reflexivity.
Defined.

(** ** Imports across the blocks of an invocation *)

Lemma importsOf_processBlock_declares e b imps :
  declares e b imps ->
  isThrow (processBlock b None e).1 = false
  ∧ importsOf (processBlock b None e).2 = fold_left pushImport imps (importsOf e).
Proof.
  unfold declares. intros Hd.
  destruct (blockTransformers e !! type b) as [T|] eqn:HT.
  - destruct Hd as (-> & Htarget & Htr).
    destruct (Htr (blockContext b None e)) as [out Hout].
    change (variableData (blockContext b None e))
      with (variableDataCollector e) in Hout.
    rewrite (processBlock_ok b None e T out _ HT Hout). cbn [fst snd].
    split; [done|].
    set (e1 := with_collector (variableDataCollector e) e).
    set (e2 := match imports T with
               | Some (i :: r) => addImports (i :: r) e1
               | _ => e1
               end).
    assert (importsOf e2 = fold_left pushImport (default [] (imports T))
                             (importsOf e)) as He2.
    { subst e2. destruct (imports T) as [[|i r]|]; try done.
      by rewrite importsOf_addImports. }
    rewrite <- He2. unfold importsOf at 1.
    rewrite get_addToCollector, decide_False by done.
    destruct (JsMap.has _ (variableDataCollector e2)); [done|].
    fold (importsOf (addVariable (targetOf T) None e2)).
    apply importsOf_addVariable.
  - subst imps. unfold processBlock. by rewrite HT.
Qed.

Lemma declares_same e e' b imps :
  blockTransformers e' = blockTransformers e ->
  declares e b imps -> declares e' b imps.
Proof. unfold declares. by intros ->. Qed.

Lemma importsOf_processBlocks_declares bs iss e :
  Forall2 (declares e) bs iss ->
  (processBlocks bs e).1 = Ok tt
  ∧ importsOf (processBlocks bs e).2
    = fold_left pushImport (concat iss) (importsOf e).
Proof.
  revert iss e. induction bs as [|b bs IH]; intros iss e Hall;
    inversion Hall as [|? imps ? iss' Hb Hrest]; subst;
    cbn [processBlocks concat]; [done|].
  destruct (importsOf_processBlock_declares e b imps Hb) as [Hok Himp].
  pose proof (sameButCollectors_processBlock b None e) as (_ & _ & Hbt & _).
  destruct (processBlock b None e) as [[out|x] e']; cbn [fst snd] in *; [|done].
  destruct (IH iss' e') as [Hok' Himp'].
  - eapply Forall2_impl; [exact Hrest|]. intros b' i'. by apply declares_same.
  - split; [exact Hok'|]. by rewrite Himp', Himp, fold_left_app.
Qed.

(** X16.  When every block either has no transformer or has one that
    returns a text, leaves the collectors alone and targets a collector
    other than [imports], the [imports] collector after [process] is the one
    before it with the imports the blocks' transformers declare added in
    block order, each only if it is not there yet: an import declared by two
    blocks, or already collected by an earlier invocation, is there once. *)
Theorem imports_accumulate_once (data : ChainData) (e : Engine)
    (iss : list (list string)) :
  Forall2 (declares e) (blocks (data_blockTree data)) iss ->
  importsOf (process data e).2
  = fold_left pushImport (concat iss) (importsOf e)
  ∧ (NoDup (importsOf e) -> NoDup (importsOf (process data e).2)).
Proof.
  intros Hall.
  assert (importsOf (process data e).2
          = fold_left pushImport (concat iss) (importsOf e)) as Himp.
  { rewrite process_state.
    destruct (importsOf_processBlocks_declares (blocks (data_blockTree data))
                iss (resetCollectors (updateContext data e))) as [_ H].
    - eapply Forall2_impl; [exact Hall|]. intros b i. by apply declares_same.
    - by rewrite H, importsOf_reset_update. }
  split; [exact Himp|].
  intros Hnd. rewrite Himp. by apply fold_pushImport_NoDup.
Qed.

Lemma sampleEngine_declares_image :
  declares sampleEngine imageBlock ["import Image from 'image'"].
Proof.
  unfold declares.
  change (blockTransformers sampleEngine !! type imageBlock)
    with (Some imageTransformer).
  split_and!; [done|done|]. intros c. by eexists.
Qed.

Lemma imports_accumulate_once_witness :
  importsOf (process (onePage [imageBlock; imageBlock] ∅) afterFirstCall).2
  = ["import Image from 'image'"].
Proof.
  rewrite (proj1 (imports_accumulate_once
                    (onePage [imageBlock; imageBlock] ∅) afterFirstCall
                    [["import Image from 'image'"];
                     ["import Image from 'image'"]]
                    ltac:(repeat first [exact sampleEngine_declares_image
                                       | constructor]))).
  reflexivity.
Defined.

(** ** Links and the html flag *)

(** X17.  The [link] transformer is called with the text and the link only,
    never with the metadata.  So with the MDX link transformer registered a
    linked span always ends as a markdown link around the result of its
    flag cascade, also when the metadata given to [processRichText] asks for
    html. *)
Theorem link_ignores_html_metadata (c : RendererContext)
    (md : option ContextMetadata) (item : RichTextItemResponse)
    (u t : string) :
  href item = Some u -> Str.nonempty u = true ->
  annotationTransformers c !! "link" = Some Mdx.linkT ->
  applyAnnotations (annotationTransformers c) (annotations item) md
    (annotations item) (plain_text item) = Ok t ->
  processRichText c [item] md = Ok ("[" +:+ t +:+ "](" +:+ u +:+ ")").
Proof.
  intros Hhref Hu HL Ht. unfold processRichText.
  rewrite mapRes_singleton by done.
  rewrite (processRichTextItem_linked _ _ _ u) by done.
  rewrite Ht, HL. cbn [bind Mdx.linkT ann_transform link url in_metadata].
  rewrite Hu. reflexivity.
Qed.

Lemma link_ignores_html_metadata_witness :
  processRichText mdxContext [helloLinked] (Some {["html" := JBool true]})
  = Ok ("[<i><strong>Hello</strong></i>](https://example.com)").
Proof.
  apply (link_ignores_html_metadata mdxContext
           (Some {["html" := JBool true]}) helloLinked
           "https://example.com" "<i><strong>Hello</strong></i>");
    reflexivity.
Defined.
